(** * Hexapod edge firmware: decision pipeline of the sensor pod

    A shallow embedding of [services/hexapod-edge/firmware/src/main.cpp]:
    the risk discretisation of [runEdgeAI], the policy engine
    ([processLocalDecisions], [shouldTransmitData], [calculateSleepDuration]),
    the uplink encoder [prepareTxFrame] and the downlink decoder
    [handleDownlinkCommand].

    Conventions.
    - A [uintN_t] or [intN_t] is a [Z] together with its wrap-around, written
      out where the source stores a computed value.
    - A [float] or [double] is an IEEE-754 value of the Standard Library's
      [spec_float]; arithmetic is the correctly rounded [SF*] operation at the
      format's precision, and a [float] compared with a [double] literal is
      first promoted, as C++ does.
    - The globals of the sketch are one record that every function threads;
      what a function prints, writes to a pin or asks of the chip is appended
      to the record's [effects]. *)

From Stdlib Require Import ZArith List String Bool Lia.
From Stdlib Require Import Floats.SpecFloat.
From stdpp Require Import base list.
Import ListNotations.
Open Scope Z_scope.

(** ** Fixed-width integers *)

Module Int.
Definition u8 (x : Z) : Z := x mod 2 ^ 8.
Definition u16 (x : Z) : Z := x mod 2 ^ 16.
Definition u32 (x : Z) : Z := x mod 2 ^ 32.
Definition u64 (x : Z) : Z := x mod 2 ^ 64.
(** Two's complement reading of the low 16 bits. *)
Definition s16 (x : Z) : Z := (x + 2 ^ 15) mod 2 ^ 16 - 2 ^ 15.
End Int.

(** ** IEEE-754 values *)

Definition float := spec_float.
Definition double := spec_float.

(** A finite value rounded towards zero, as a conversion to an integer type
    does.  The conversions below ([to_s16], [to_u16], [to_u32]) then reduce
    it to the width of the type: within the range of the type that is the
    C++ result, and outside it, where C++ leaves the result undefined, it is
    the wrap-around the design documents.  NaN and the infinities are sent
    to 0. *)
Definition SFtrunc (x : spec_float) : Z :=
  match x with
  | S754_finite s m e => cond_Zopp s (Z.shiftl (Zpos m) e)
  | _ => 0
  end.

Definition SFis_nan (x : spec_float) : bool :=
  match x with S754_nan => true | _ => false end.

Module F64.
Definition prec := 53.
Definition emax := 1024.
Definition add : double -> double -> double := SFadd prec emax.
Definition mul : double -> double -> double := SFmul prec emax.
Definition div : double -> double -> double := SFdiv prec emax.
Definition of_Z (z : Z) : double := binary_normalize prec emax z 0 false.
(** A decimal literal [m / 10^k] of the source, rounded to the nearest
    double as the compiler does. *)
Definition lit (m : Z) (k : Z) : double := div (of_Z m) (of_Z (10 ^ k)).
(** Promotion of a [float], which is exact. *)
Definition of_float (x : float) : double :=
  match x with
  | S754_finite s m e => binary_round prec emax s m e
  | _ => x
  end.
Definition ltb (x y : double) : bool := SFltb x y.
Definition leb (x y : double) : bool := SFleb x y.
(** [fmax]: the other operand when one is NaN, else the larger. *)
Definition fmax (x y : double) : double :=
  if SFis_nan x then y else if SFis_nan y then x
  else if SFltb x y then y else x.
Definition to_u32 (x : double) : Z := Int.u32 (SFtrunc x).
End F64.

Module F32.
Definition prec := 24.
Definition emax := 128.
Definition add : float -> float -> float := SFadd prec emax.
Definition sub : float -> float -> float := SFsub prec emax.
Definition mul : float -> float -> float := SFmul prec emax.
Definition div : float -> float -> float := SFdiv prec emax.
Definition opp : float -> float := SFopp.
Definition of_Z (z : Z) : float := binary_normalize prec emax z 0 false.
(** Conversion of a [double] to [float], round to nearest even. *)
Definition of_double (x : double) : float :=
  match x with
  | S754_finite s m e => binary_round prec emax s m e
  | _ => x
  end.
(** A [float] initialised from a decimal literal of the source. *)
Definition lit (m : Z) (k : Z) : float := of_double (F64.lit m k).
Definition to_s16 (x : float) : Z := Int.s16 (SFtrunc x).
Definition to_u16 (x : float) : Z := Int.u16 (SFtrunc x).
(** The 32 bits of a [float] (sign, biased exponent, fraction); a NaN is
    the quiet NaN with an empty payload. *)
Definition bits (x : float) : Z :=
  match x with
  | S754_zero s => if s then 2 ^ 31 else 0
  | S754_infinity s => (if s then 2 ^ 31 else 0) + 255 * 2 ^ 23
  | S754_nan => 255 * 2 ^ 23 + 2 ^ 22
  | S754_finite s m e => (if s then 2 ^ 31 else 0) + (e + 149) * 2 ^ 23 + Zpos m
  end.
End F32.

(** ** Data structures *)

Record SensorData := {
  timestamp : Z;
  latitude : float;
  longitude : float;
  elevation : float;
  tilt_x : float;
  tilt_y : float;
  tilt_z : float;
  accel_x : float;
  accel_y : float;
  accel_z : float;
  gyro_x : float;
  gyro_y : float;
  gyro_z : float;
  pore_pressure : float;
  temperature : float;
  humidity : float;
  strain_gauge : float;
  battery_voltage : float;
  quality_flags : Z;
  battery_level : Z;
  signal_strength : Z
}.

(** [EdgeAIResult::timestamp] is [ai_timestamp] here: a record field is a
    global name. *)
Record EdgeAIResult := {
  anomaly_score : float;
  risk_level : Z;
  confidence : float;
  ai_timestamp : Z
}.

(** ** Effects *)

Inductive printf_arg :=
| IntArg (z : Z)
| FloatArg (x : double).

Inductive effect :=
| SerialPrintln (s : string)
| SerialPrintf (fmt : string) (args : list printf_arg)
| DigitalWrite (pin : Z) (high : bool)
| Delay (ms : Z)
| EspWifiStop
| EspBtControllerDisable
| EspSleepEnableTimerWakeup (us : Z)
| EspDeepSleepStart.

(** ** Global variables *)

Record Globals := {
  currentReading : SensorData;
  aiResult : EdgeAIResult;
  deviceJoined : bool;
  lastTransmission : Z;
  transmissionInterval : Z;
  failedTransmissions : Z;
  emergencyMode : bool;
  nn_weights_input_hidden : list (list float);
  nn_weights_hidden_output : list float;
  appData : list Z;
  appDataSize : Z;
  effects : list effect
}.

Definition set_aiResult (v : EdgeAIResult) (g : Globals) : Globals :=
  {| currentReading := currentReading g; aiResult := v;
     deviceJoined := deviceJoined g; lastTransmission := lastTransmission g;
     transmissionInterval := transmissionInterval g;
     failedTransmissions := failedTransmissions g;
     emergencyMode := emergencyMode g;
     nn_weights_input_hidden := nn_weights_input_hidden g;
     nn_weights_hidden_output := nn_weights_hidden_output g;
     appData := appData g; appDataSize := appDataSize g;
     effects := effects g |}.

Definition set_lastTransmission (v : Z) (g : Globals) : Globals :=
  {| currentReading := currentReading g; aiResult := aiResult g;
     deviceJoined := deviceJoined g; lastTransmission := v;
     transmissionInterval := transmissionInterval g;
     failedTransmissions := failedTransmissions g;
     emergencyMode := emergencyMode g;
     nn_weights_input_hidden := nn_weights_input_hidden g;
     nn_weights_hidden_output := nn_weights_hidden_output g;
     appData := appData g; appDataSize := appDataSize g;
     effects := effects g |}.

Definition set_transmissionInterval (v : Z) (g : Globals) : Globals :=
  {| currentReading := currentReading g; aiResult := aiResult g;
     deviceJoined := deviceJoined g; lastTransmission := lastTransmission g;
     transmissionInterval := v;
     failedTransmissions := failedTransmissions g;
     emergencyMode := emergencyMode g;
     nn_weights_input_hidden := nn_weights_input_hidden g;
     nn_weights_hidden_output := nn_weights_hidden_output g;
     appData := appData g; appDataSize := appDataSize g;
     effects := effects g |}.

Definition set_emergencyMode (v : bool) (g : Globals) : Globals :=
  {| currentReading := currentReading g; aiResult := aiResult g;
     deviceJoined := deviceJoined g; lastTransmission := lastTransmission g;
     transmissionInterval := transmissionInterval g;
     failedTransmissions := failedTransmissions g;
     emergencyMode := v;
     nn_weights_input_hidden := nn_weights_input_hidden g;
     nn_weights_hidden_output := nn_weights_hidden_output g;
     appData := appData g; appDataSize := appDataSize g;
     effects := effects g |}.

Definition set_appData (data : list Z) (size : Z) (g : Globals) : Globals :=
  {| currentReading := currentReading g; aiResult := aiResult g;
     deviceJoined := deviceJoined g; lastTransmission := lastTransmission g;
     transmissionInterval := transmissionInterval g;
     failedTransmissions := failedTransmissions g;
     emergencyMode := emergencyMode g;
     nn_weights_input_hidden := nn_weights_input_hidden g;
     nn_weights_hidden_output := nn_weights_hidden_output g;
     appData := data; appDataSize := size;
     effects := effects g |}.

(** Appends one effect to the log. *)
Definition emit (e : effect) (g : Globals) : Globals :=
  {| currentReading := currentReading g; aiResult := aiResult g;
     deviceJoined := deviceJoined g; lastTransmission := lastTransmission g;
     transmissionInterval := transmissionInterval g;
     failedTransmissions := failedTransmissions g;
     emergencyMode := emergencyMode g;
     nn_weights_input_hidden := nn_weights_input_hidden g;
     nn_weights_hidden_output := nn_weights_hidden_output g;
     appData := appData g; appDataSize := appDataSize g;
     effects := effects g ++ [e] |}.

(** ** Constants *)

Definition LED_PIN : Z := 2.
Definition CRITICAL_BATTERY_THRESHOLD : double := F64.lit 30 1.

(** ** Adaptive policy *)

(** One turn of the rapid LED flash of the emergency alert. *)
Definition flashLed (g : Globals) : Globals :=
  let g := emit (DigitalWrite LED_PIN true) g in
  let g := emit (Delay 100) g in
  let g := emit (DigitalWrite LED_PIN false) g in
  emit (Delay 100) g.

(** Emergency mode activation and deactivation, the first statement of
    [processLocalDecisions]. *)
Definition emergencyTransition (g : Globals) : Globals :=
  let ai := aiResult g in
  if (risk_level ai =? 3)
     && F64.ltb (F64.lit 7 1) (F64.of_float (confidence ai)) then
    if negb (emergencyMode g) then
      let g := set_emergencyMode true g in
      let g := set_transmissionInterval (Int.u32 (1 * 60 * 1000)) g in
      let g := emit (SerialPrintln "EMERGENCY MODE ACTIVATED") g in
      Nat.iter 10 flashLed g
    else g
  else if emergencyMode g && (risk_level ai =? 0) then
    let g := set_emergencyMode false g in
    let g := set_transmissionInterval (Int.u32 (30 * 60 * 1000)) g in
    emit (SerialPrintln "Emergency mode deactivated") g
  else g.

(** Transmission interval by risk level. *)
Definition adjustInterval (g : Globals) : Globals :=
  let ai := aiResult g in
  if 2 <=? risk_level ai then
    set_transmissionInterval (Int.u32 (5 * 60 * 1000)) g
  else if risk_level ai =? 1 then
    set_transmissionInterval (Int.u32 (15 * 60 * 1000)) g
  else
    set_transmissionInterval (Int.u32 (30 * 60 * 1000)) g.

(** Battery-based adjustment of the interval. *)
Definition adjustForBattery (g : Globals) : Globals :=
  if battery_level (currentReading g) <? 20 then
    set_transmissionInterval (Int.u32 (transmissionInterval g * 2)) g
  else g.

(** [enterDeepSleep] does not return: the chip powers down.  Its result is
    the state of the globals at that point. *)
Definition enterDeepSleep (sleepTimeSeconds : Z) (g : Globals) : Globals :=
  let g := emit (SerialPrintf "Entering deep sleep for %d seconds\n"
                   [IntArg sleepTimeSeconds]) g in
  let g := emit EspWifiStop g in
  let g := emit EspBtControllerDisable g in
  let g := emit (EspSleepEnableTimerWakeup
                   (Int.u64 (sleepTimeSeconds * 1000000))) g in
  emit EspDeepSleepStart g.

(** How a function that may put the chip to sleep ends. *)
Inductive outcome :=
| Returns (g : Globals)
| DeepSleep (g : Globals).

(** The globals when the function ends, either way. *)
Definition globals_of (o : outcome) : Globals :=
  match o with Returns g | DeepSleep g => g end.

Definition processLocalDecisions (g : Globals) : outcome :=
  let g := emergencyTransition g in
  let g := adjustInterval g in
  let g := adjustForBattery g in
  if F64.ltb (F64.of_float (battery_voltage (currentReading g)))
       CRITICAL_BATTERY_THRESHOLD then
    let g := emit (SerialPrintln "Critical battery - entering deep sleep") g in
    DeepSleep (enterDeepSleep (Int.u32 (4 * 60 * 60)) g)
  else Returns g.

(** [millis] is the value [millis()] returns at the call, a [uint32_t]. *)
Definition shouldTransmitData (millis : Z) (g : Globals) : bool :=
  let timeSinceLastTx := Int.u32 (millis - lastTransmission g) in
  if emergencyMode g then true
  else if transmissionInterval g <=? timeSinceLastTx then true
  else if 2 <=? risk_level (aiResult g) then true
  else false.

Definition calculateSleepDuration (millis : Z) (g : Globals) : Z :=
  let baseSleep := Int.u32 (15 * 60 * 1000) in
  let baseSleep :=
    match risk_level (aiResult g) with
    | 3 => Int.u32 (30 * 1000)
    | 2 => Int.u32 (2 * 60 * 1000)
    | 1 => Int.u32 (5 * 60 * 1000)
    | _ => Int.u32 (15 * 60 * 1000)
    end in
  let baseSleep :=
    if battery_level (currentReading g) <? 20 then Int.u32 (baseSleep * 2)
    else if battery_level (currentReading g) <? 10 then Int.u32 (baseSleep * 4)
    else baseSleep in
  let hour := (millis / 3600000) mod 24 in
  let isDaytime := (6 <=? hour) && (hour <=? 18) in
  if isDaytime && (80 <? battery_level (currentReading g)) then
    F64.to_u32 (F64.mul (F64.of_Z baseSleep) (F64.lit 7 1))
  else baseSleep.

(** ** Downlink commands *)

(** [buffer[i]] for a buffer of bytes; the source reads only below [size]. *)
Definition byte_at (buffer : list Z) (i : nat) : Z := nth i buffer 0.

Definition handleDownlinkCommand (buffer : list Z) (size : Z) (g : Globals)
  : Globals :=
  if size <? 2 then g
  else
    let command := byte_at buffer 0 in
    let value := byte_at buffer 1 in
    match command with
    | 1 =>
      let g := set_transmissionInterval (Int.u32 (value * 60 * 1000)) g in
      emit (SerialPrintf "Transmission interval updated to %d minutes\n"
              [IntArg value]) g
    | 2 =>
      let g := set_lastTransmission 0 g in
      emit (SerialPrintln "Forced transmission requested") g
    | 3 => emit (SerialPrintln "Entering maintenance mode") g
    | 4 => emit (SerialPrintf "AI threshold update: %d\n" [IntArg value]) g
    | _ => emit (SerialPrintf "Unknown command: 0x%02X\n" [IntArg command]) g
    end.

(** ** Uplink frame *)

(** The [int16_t measurements[13]] of [prepareTxFrame]: each channel scaled
    in [float] arithmetic, then cast. *)
Definition measurements (r : SensorData) : list Z :=
  [ F32.to_s16 (F32.mul (tilt_x r) (F32.of_Z 1000));
    F32.to_s16 (F32.mul (tilt_y r) (F32.of_Z 1000));
    F32.to_s16 (F32.mul (tilt_z r) (F32.of_Z 1000));
    F32.to_s16 (F32.mul (accel_x r) (F32.of_Z 100));
    F32.to_s16 (F32.mul (accel_y r) (F32.of_Z 100));
    F32.to_s16 (F32.mul (accel_z r) (F32.of_Z 100));
    F32.to_s16 (F32.mul (gyro_x r) (F32.of_Z 1000));
    F32.to_s16 (F32.mul (gyro_y r) (F32.of_Z 1000));
    F32.to_s16 (F32.mul (gyro_z r) (F32.of_Z 1000));
    F32.to_s16 (pore_pressure r);
    F32.to_s16 (F32.mul (temperature r) (F32.of_Z 10));
    F32.to_s16 (humidity r);
    F32.to_s16 (strain_gauge r) ].

(** The local array [payload] with the write position [index]. *)
Definition cursor := (list Z * Z)%type.

(** [payload[index++] = b] *)
Definition store (b : Z) (c : cursor) : cursor :=
  (<[Z.to_nat (snd c) := b]> (fst c), snd c + 1).

(** The frame the radio stack is handed: the first [appDataSize] bytes of
    [appData]. *)
Definition uplinkFrame (g : Globals) : list Z :=
  take (Z.to_nat (appDataSize g)) (appData g).

(** The [n] low base-256 digits of [z], most significant first: a big-endian
    integer field of [n] bytes (two's complement for a negative [z]). *)
Definition be_bytes (n : nat) (z : Z) : list Z :=
  map (fun k => (z / 256 ^ Z.of_nat k) mod 256) (rev (seq 0 n)).

Section TxFrame.

(** The four bytes a [float] occupies in memory, in address order.  The
    target fixes them, not the source. *)
Variable float_bytes : float -> list Z.

(** [memcpy(&payload[index], &x, 4); index += 4] *)
Definition memcpy_float (x : float) (c : cursor) : cursor :=
  (list_inserts (Z.to_nat (snd c)) (take 4 (float_bytes x)) (fst c),
   snd c + 4).

(** [payload] is the stack memory the local array is given,
    uninitialised. *)
Definition prepareTxFrame (payload : list Z) (g : Globals) : Globals :=
  let r := currentReading g in
  let ai := aiResult g in
  let c : cursor := (payload, 0) in
  let c := store (Int.u8 (Z.land (Z.shiftr (timestamp r) 24) 255)) c in
  let c := store (Int.u8 (Z.land (Z.shiftr (timestamp r) 16) 255)) c in
  let c := store (Int.u8 (Z.land (Z.shiftr (timestamp r) 8) 255)) c in
  let c := store (Int.u8 (Z.land (timestamp r) 255)) c in
  let c := memcpy_float (latitude r) c in
  let c := memcpy_float (longitude r) c in
  let c := memcpy_float (elevation r) c in
  let c :=
    fold_left
      (fun c i =>
         let m := nth i (measurements r) 0 in
         let c := store (Int.u8 (Z.land (Z.shiftr m 8) 255)) c in
         store (Int.u8 (Z.land m 255)) c)
      (seq 0 13) c in
  let c := store (quality_flags r) c in
  let c := store (battery_level r) c in
  let c := store (Int.u8 (signal_strength r + 128)) c in
  let anomaly_score_scaled :=
    F32.to_u16 (F32.mul (anomaly_score ai) (F32.of_Z 1000)) in
  let c := store (Int.u8 (Z.land (Z.shiftr anomaly_score_scaled 8) 255)) c in
  let c := store (Int.u8 (Z.land anomaly_score_scaled 255)) c in
  let c := store (risk_level ai) c in
  let confidence_scaled :=
    F32.to_u16 (F32.mul (confidence ai) (F32.of_Z 1000)) in
  let c := store (Int.u8 (Z.land (Z.shiftr confidence_scaled 8) 255)) c in
  let c := store (Int.u8 (Z.land confidence_scaled 255)) c in
  let c := store (if emergencyMode g then 1 else 0) c in
  let index := snd c in
  let g :=
    set_appData
      (list_inserts 0 (take (Z.to_nat index) (fst c)) (appData g)) index g in
  emit (SerialPrintf "Prepared payload: %d bytes\n" [IntArg index]) g.

(** The layout the wire contract describes, field by field, to compare the
    encoder with. *)
Definition uplink_layout (g : Globals) : list Z :=
  let r := currentReading g in
  let ai := aiResult g in
  be_bytes 4 (timestamp r)
  ++ (float_bytes (latitude r) ++ float_bytes (longitude r)
      ++ float_bytes (elevation r))
  ++ concat (map (be_bytes 2) (measurements r))
  ++ [quality_flags r; battery_level r; (signal_strength r + 128) mod 256]
  ++ be_bytes 2 (F32.to_u16 (F32.mul (anomaly_score ai) (F32.of_Z 1000)))
  ++ [risk_level ai]
  ++ be_bytes 2 (F32.to_u16 (F32.mul (confidence ai) (F32.of_Z 1000)))
  ++ [if emergencyMode g then 1 else 0].

End TxFrame.

(** The memory image of a [float] on the ESP32, which is little-endian. *)
Definition esp32_float_bytes (x : float) : list Z :=
  rev (be_bytes 4 (F32.bits x)).

(** ** Edge inference *)

Definition feature_means : list float :=
  [ F32.lit 0 1; F32.lit 0 1; F32.lit 0 1; F32.lit 0 1; F32.lit 0 1;
    F32.lit 981 2; F32.lit 0 1; F32.lit 0 1; F32.lit 0 1; F32.lit 1250 1;
    F32.lit 200 1; F32.lit 600 1; F32.lit 500 1 ].

Definition feature_stds : list float :=
  [ F32.lit 1 1; F32.lit 1 1; F32.lit 1 1; F32.lit 20 1; F32.lit 20 1;
    F32.lit 20 1; F32.lit 1 2; F32.lit 1 2; F32.lit 1 2; F32.lit 250 1;
    F32.lit 100 1; F32.lit 200 1; F32.lit 250 1 ].

(** [a[i]] for an array of [float]. *)
Definition at_ (a : list float) (i : nat) : float := nth i a (S754_zero false).

(** "Determine risk level": the [if] chain of [runEdgeAI] on the stored
    anomaly score. *)
Definition riskLevel (score : float) : Z :=
  if F64.ltb (F64.of_float score) (F64.lit 3 1) then 0
  else if F64.ltb (F64.of_float score) (F64.lit 6 1) then 1
  else if F64.ltb (F64.of_float score) (F64.lit 8 1) then 2
  else 3.

Section EdgeAI.

(** [exp] of the C library. *)
Variable exp : double -> double.

Definition normalize (features : list float) : list float :=
  fold_left
    (fun features i =>
       <[i := F32.div (F32.sub (at_ features i) (at_ feature_means i))
                (at_ feature_stds i)]> features)
    (seq 0 13) features.

Definition hiddenLayer (weights : list (list float)) (features : list float)
  : list float :=
  fold_left
    (fun hidden h =>
       let hidden :=
         fold_left
           (fun hidden i =>
              <[h := F32.add (at_ hidden h)
                       (F32.mul (at_ (nth i weights []) h) (at_ features i))]>
                hidden)
           (seq 0 13) hidden in
       <[h := F32.of_double
                (F64.fmax (F64.of_Z 0) (F64.of_float (at_ hidden h)))]>
         hidden)
    (seq 0 8) (repeat (F32.of_Z 0) 8).

Definition outputLayer (weights : list float) (hidden : list float) : float :=
  fold_left
    (fun output h => F32.add output (F32.mul (at_ weights h) (at_ hidden h)))
    (seq 0 8) (F32.of_Z 0).

Definition runEdgeAI (g : Globals) : Globals :=
  let r := currentReading g in
  let features :=
    [ tilt_x r; tilt_y r; tilt_z r; accel_x r; accel_y r; accel_z r;
      gyro_x r; gyro_y r; gyro_z r; pore_pressure r; temperature r;
      humidity r; strain_gauge r ] in
  let features := normalize features in
  let hidden := hiddenLayer (nn_weights_input_hidden g) features in
  let output := outputLayer (nn_weights_hidden_output g) hidden in
  let score :=
    F32.of_double
      (F64.div (F64.lit 10 1)
         (F64.add (F64.lit 10 1) (exp (F64.of_float (F32.opp output))))) in
  let ai :=
    {| anomaly_score := score;
       risk_level := riskLevel score;
       confidence := F32.lit 8 1;
       ai_timestamp := timestamp r |} in
  let g := set_aiResult ai g in
  emit (SerialPrintf "Edge AI - Anomaly Score: %.3f, Risk Level: %d\n"
          [FloatArg (F64.of_float score); IntArg (riskLevel score)]) g.

End EdgeAI.

(** ** Remaining setters *)

Definition set_currentReading (v : SensorData) (g : Globals) : Globals :=
  {| currentReading := v; aiResult := aiResult g;
     deviceJoined := deviceJoined g; lastTransmission := lastTransmission g;
     transmissionInterval := transmissionInterval g;
     failedTransmissions := failedTransmissions g;
     emergencyMode := emergencyMode g;
     nn_weights_input_hidden := nn_weights_input_hidden g;
     nn_weights_hidden_output := nn_weights_hidden_output g;
     appData := appData g; appDataSize := appDataSize g;
     effects := effects g |}.

Definition set_deviceJoined (v : bool) (g : Globals) : Globals :=
  {| currentReading := currentReading g; aiResult := aiResult g;
     deviceJoined := v; lastTransmission := lastTransmission g;
     transmissionInterval := transmissionInterval g;
     failedTransmissions := failedTransmissions g;
     emergencyMode := emergencyMode g;
     nn_weights_input_hidden := nn_weights_input_hidden g;
     nn_weights_hidden_output := nn_weights_hidden_output g;
     appData := appData g; appDataSize := appDataSize g;
     effects := effects g |}.

Definition set_failedTransmissions (v : Z) (g : Globals) : Globals :=
  {| currentReading := currentReading g; aiResult := aiResult g;
     deviceJoined := deviceJoined g; lastTransmission := lastTransmission g;
     transmissionInterval := transmissionInterval g;
     failedTransmissions := v;
     emergencyMode := emergencyMode g;
     nn_weights_input_hidden := nn_weights_input_hidden g;
     nn_weights_hidden_output := nn_weights_hidden_output g;
     appData := appData g; appDataSize := appDataSize g;
     effects := effects g |}.

Definition set_nn_weights (input_hidden : list (list float))
  (hidden_output : list float) (g : Globals) : Globals :=
  {| currentReading := currentReading g; aiResult := aiResult g;
     deviceJoined := deviceJoined g; lastTransmission := lastTransmission g;
     transmissionInterval := transmissionInterval g;
     failedTransmissions := failedTransmissions g;
     emergencyMode := emergencyMode g;
     nn_weights_input_hidden := input_hidden;
     nn_weights_hidden_output := hidden_output;
     appData := appData g; appDataSize := appDataSize g;
     effects := effects g |}.

(** ** Sensor acquisition *)

(** Subtraction of [double]s, and the conversion to [int8_t]. *)
Definition F64_sub : double -> double -> double := SFsub F64.prec F64.emax.
Definition s8 (x : Z) : Z := (x + 2 ^ 7) mod 2 ^ 8 - 2 ^ 7.

(** The [float] argument is promoted for each comparison with a [double]
    literal; the promoted value is the same every time. *)
Definition calculateBatteryLevel (voltage : float) : Z :=
  let v := F64.of_float voltage in
  if F64.leb (F64.lit 37 1) v then 100
  else if F64.leb (F64.lit 35 1) v then 80
  else if F64.leb (F64.lit 33 1) v then 60
  else if F64.leb (F64.lit 32 1) v then 40
  else if F64.leb (F64.lit 31 1) v then 20
  else if F64.leb (F64.lit 30 1) v then 10
  else 0.

(** Modelled from the spec: [abs] is declared by the Arduino core, which is
    not among the sources; the spec reads [abs(x)] as the absolute value
    of [x].  On a [float] it is the [float] without its sign. *)
Definition abs (x : float) : float := SFabs x.

(** A [float] against a [double] literal is compared as [double]s, a
    [float] against an [int] literal as [float]s. *)
Definition validateSensorReadings (r : SensorData) : Z :=
  let flags := 0 in
  let flags :=
    if F64.leb (F64.of_float (abs (tilt_x r))) (F64.lit 10 1)
       && F64.leb (F64.of_float (abs (tilt_y r))) (F64.lit 10 1)
    then Int.u8 (Z.lor flags 1) else flags in
  let flags :=
    if SFleb (abs (accel_x r)) (F32.of_Z 20)
       && SFleb (abs (accel_y r)) (F32.of_Z 20)
       && SFleb (F32.of_Z 5) (accel_z r)
       && SFleb (accel_z r) (F32.of_Z 15)
    then Int.u8 (Z.lor flags 2) else flags in
  let flags :=
    if SFleb (abs (gyro_x r)) (F32.of_Z 10)
       && SFleb (abs (gyro_y r)) (F32.of_Z 10)
       && SFleb (abs (gyro_z r)) (F32.of_Z 10)
    then Int.u8 (Z.lor flags 4) else flags in
  let flags :=
    if SFleb (F32.of_Z 0) (pore_pressure r)
       && SFleb (pore_pressure r) (F32.of_Z 1000)
    then Int.u8 (Z.lor flags 8) else flags in
  let flags :=
    if SFleb (F32.of_Z (-40)) (temperature r)
       && SFleb (temperature r) (F32.of_Z 70)
       && SFleb (F32.of_Z 0) (humidity r)
       && SFleb (humidity r) (F32.of_Z 100)
    then Int.u8 (Z.lor flags 16) else flags in
  let flags :=
    if SFleb (abs (strain_gauge r)) (F32.of_Z 1000)
    then Int.u8 (Z.lor flags 32) else flags in
  flags.

(** The analog inputs of the sketch. *)
Inductive analog_pin := A0 | A1 | A2 | A3 | A4 | A5.

Definition BATTERY_PIN := A0.
Definition SOLAR_PIN := A1.
Definition TILT_X_PIN := A2.
Definition TILT_Y_PIN := A3.
Definition PIEZOMETER_PIN := A4.
Definition STRAIN_GAUGE_PIN := A5.

(** A vector of a [sensors_event_t]. *)
Record sensors_vec := { vec_x : float; vec_y : float; vec_z : float }.

(** What the hardware answers during one [performSensorCycle]: the clock at
    its three readings, the converter, the two sensors and the radio. *)
Record Hardware := {
  millis_read : Z;
  millis_decide : Z;
  millis_sent : Z;
  analogRead : analog_pin -> Z;
  mpu_acceleration : sensors_vec;
  mpu_gyro : sensors_vec;
  bme_readTemperature : float;
  bme_readHumidity : float;
  LoRaWAN_getRSSI : Z
}.

(** [(analogRead(pin) - 2048) / 2048.0], stored in a [float]. *)
Definition tilt_of_adc (a : Z) : float :=
  F32.of_double (F64.div (F64.of_Z (a - 2048)) (F64.lit 20480 1)).

(** [analogRead(pin) * 3.3 / 4095.0], stored in a [float]. *)
Definition voltage_of_adc (a : Z) : float :=
  F32.of_double (F64.div (F64.mul (F64.of_Z a) (F64.lit 33 1)) (F64.lit 40950 1)).

(** [(piezoVoltage - 0.5) * 250.0], stored in a [float]. *)
Definition pore_pressure_of_adc (a : Z) : float :=
  F32.of_double
    (F64.mul (F64_sub (F64.of_float (voltage_of_adc a)) (F64.lit 5 1))
       (F64.lit 2500 1)).

(** [(strainVoltage - 1.65) * 1000.0], stored in a [float]. *)
Definition strain_of_adc (a : Z) : float :=
  F32.of_double
    (F64.mul (F64_sub (F64.of_float (voltage_of_adc a)) (F64.lit 165 2))
       (F64.lit 10000 1)).

(** [analogRead(BATTERY_PIN) * 3.3 / 4095.0 * 2.0], stored in a [float]. *)
Definition battery_voltage_of_adc (a : Z) : float :=
  F32.of_double
    (F64.mul (F64.div (F64.mul (F64.of_Z a) (F64.lit 33 1)) (F64.lit 40950 1))
       (F64.lit 20 1)).

Definition readAllSensors (hw : Hardware) (g : Globals) : Globals :=
  let batteryVoltage := battery_voltage_of_adc (analogRead hw BATTERY_PIN) in
  let r :=
    {| timestamp := Int.u32 (millis_read hw / 1000);
       latitude := F32.lit (-235505) 4;
       longitude := F32.lit (-466333) 4;
       elevation := F32.lit 7600 1;
       tilt_x := tilt_of_adc (analogRead hw TILT_X_PIN);
       tilt_y := tilt_of_adc (analogRead hw TILT_Y_PIN);
       tilt_z := F32.lit 0 1;
       accel_x := vec_x (mpu_acceleration hw);
       accel_y := vec_y (mpu_acceleration hw);
       accel_z := vec_z (mpu_acceleration hw);
       gyro_x := vec_x (mpu_gyro hw);
       gyro_y := vec_y (mpu_gyro hw);
       gyro_z := vec_z (mpu_gyro hw);
       pore_pressure := pore_pressure_of_adc (analogRead hw PIEZOMETER_PIN);
       temperature := bme_readTemperature hw;
       humidity := bme_readHumidity hw;
       strain_gauge := strain_of_adc (analogRead hw STRAIN_GAUGE_PIN);
       battery_voltage := batteryVoltage;
       quality_flags := quality_flags (currentReading g);
       battery_level := calculateBatteryLevel batteryVoltage;
       signal_strength := signal_strength (currentReading g) |} in
  let r :=
    {| timestamp := timestamp r; latitude := latitude r;
       longitude := longitude r; elevation := elevation r;
       tilt_x := tilt_x r; tilt_y := tilt_y r; tilt_z := tilt_z r;
       accel_x := accel_x r; accel_y := accel_y r; accel_z := accel_z r;
       gyro_x := gyro_x r; gyro_y := gyro_y r; gyro_z := gyro_z r;
       pore_pressure := pore_pressure r; temperature := temperature r;
       humidity := humidity r; strain_gauge := strain_gauge r;
       battery_voltage := battery_voltage r;
       quality_flags := validateSensorReadings r;
       battery_level := battery_level r;
       signal_strength := s8 (LoRaWAN_getRSSI hw) |} in
  let g := set_currentReading r g in
  emit (SerialPrintf
          "Sensors read - Temp: %.1fÂ°C, Humidity: %.1f%%, Battery: %.1f%%\n"
          [FloatArg (F64.of_float (temperature r));
           FloatArg (F64.of_float (humidity r));
           IntArg (battery_level r)]) g.

(** ** Neural network weights *)

(** [random(-100, 100) / 1000.0], stored in a [float]. *)
Definition weight_of_draw (d : Z) : float :=
  F32.of_double (F64.div (F64.of_Z d) (F64.lit 10000 1)).

(** [random k] is what the [k]-th call of [random(-100, 100)] returns; the
    loops draw row by row, then the output weights. *)
Definition initializeNeuralNetwork (random : nat -> Z) (g : Globals) : Globals :=
  let input_hidden :=
    map (fun i => map (fun h => weight_of_draw (random (i * 8 + h)%nat))
                    (seq 0 8))
      (seq 0 13) in
  let hidden_output :=
    map (fun h => weight_of_draw (random (13 * 8 + h)%nat)) (seq 0 8) in
  let g := set_nn_weights input_hidden hidden_output g in
  emit (SerialPrintln "Neural network initialized") g.

(** ** The sensor cycle *)

(** How [performSensorCycle] ends: after [LoRaWAN.send()], without sending,
    or in deep sleep. *)
Inductive cycle_outcome :=
| CycleSent (g : Globals)
| CycleQuiet (g : Globals)
| CycleDeepSleep (g : Globals).

Definition cycle_globals (o : cycle_outcome) : Globals :=
  match o with CycleSent g | CycleQuiet g | CycleDeepSleep g => g end.

Definition performSensorCycle (exp : double -> double)
  (float_bytes : float -> list Z) (payload : list Z) (hw : Hardware)
  (g : Globals) : cycle_outcome :=
  let g := readAllSensors hw g in
  let g := runEdgeAI exp g in
  match processLocalDecisions g with
  | DeepSleep g => CycleDeepSleep g
  | Returns g =>
    if shouldTransmitData (millis_decide hw) g then
      let g := prepareTxFrame float_bytes payload g in
      CycleSent (set_lastTransmission (millis_sent hw) g)
    else CycleQuiet g
  end.

(** ** Radio callbacks *)

(** The states of the radio stack the sketch assigns to [deviceState]. *)
Inductive eDeviceState :=
| DEVICE_STATE_INIT
| DEVICE_STATE_JOIN
| DEVICE_STATE_SEND
| DEVICE_STATE_CYCLE
| DEVICE_STATE_SLEEP.

(** The fields of [McpsIndication_t] the sketch reads. *)
Record McpsIndication := {
  Rssi : Z;
  Snr : Z;
  RxDatarate : Z;
  BufferSize : Z;
  Buffer : list Z
}.

Definition downLinkDataHandle (mcpsIndication : McpsIndication) (g : Globals)
  : Globals :=
  let g :=
    emit (SerialPrintf
            "Received downlink: rssi = %d, snr = %d, datarate = %d, length = %d\n"
            [IntArg (Rssi mcpsIndication); IntArg (Snr mcpsIndication);
             IntArg (RxDatarate mcpsIndication);
             IntArg (BufferSize mcpsIndication)]) g in
  if 0 <? BufferSize mcpsIndication then
    handleDownlinkCommand (Buffer mcpsIndication) (BufferSize mcpsIndication) g
  else g.

(** Each callback returns the globals and the state it assigns to
    [deviceState]. *)
Definition onJoinSuccess (g : Globals) : Globals * eDeviceState :=
  let g := set_deviceJoined true g in
  let g := emit (SerialPrintln "LoRaWAN network joined successfully") g in
  (g, DEVICE_STATE_SEND).

Definition onJoinFailed (g : Globals) : Globals * eDeviceState :=
  let g := emit (SerialPrintln "LoRaWAN join failed") g in
  let g := set_failedTransmissions (Int.u8 (failedTransmissions g + 1)) g in
  (g, DEVICE_STATE_JOIN).

Definition onSendSuccess (g : Globals) : Globals * eDeviceState :=
  let g := emit (SerialPrintln "Data transmission successful") g in
  let g := set_failedTransmissions 0 g in
  (g, DEVICE_STATE_CYCLE).

Definition onSendFailed (g : Globals) : Globals * eDeviceState :=
  let g := emit (SerialPrintln "Data transmission failed") g in
  let g := set_failedTransmissions (Int.u8 (failedTransmissions g + 1)) g in
  (g, DEVICE_STATE_CYCLE).

(** ** Sample values *)

Module Sample.

(** A plausible acquisition, with the coordinates [readAllSensors] uses. *)
Definition reading (level : Z) (voltage : float) : SensorData :=
  {| timestamp := 1200;
     latitude := F32.lit (-235505) 4;
     longitude := F32.lit (-466333) 4;
     elevation := F32.lit 7600 1;
     tilt_x := F32.lit 25 3;
     tilt_y := F32.lit (-4) 2;
     tilt_z := F32.lit 0 1;
     accel_x := F32.lit 12 2;
     accel_y := F32.lit (-8) 2;
     accel_z := F32.lit 979 2;
     gyro_x := F32.lit 1 3;
     gyro_y := F32.lit (-2) 3;
     gyro_z := F32.lit 0 1;
     pore_pressure := F32.lit 1312 1;
     temperature := F32.lit 215 1;
     humidity := F32.lit 640 1;
     strain_gauge := F32.lit (-423) 1;
     battery_voltage := voltage;
     quality_flags := 63;
     battery_level := level;
     signal_strength := -70 |}.

Definition result (risk : Z) (score conf : float) : EdgeAIResult :=
  {| anomaly_score := score;
     risk_level := risk;
     confidence := conf;
     ai_timestamp := 1200 |}.

(** The globals as the sketch initialises them, around a reading and an
    inference result. *)
Definition globals (r : SensorData) (ai : EdgeAIResult) (emergency : bool)
  : Globals :=
  {| currentReading := r;
     aiResult := ai;
     deviceJoined := true;
     lastTransmission := 0;
     transmissionInterval := Int.u32 (30 * 60 * 1000);
     failedTransmissions := 0;
     emergencyMode := emergency;
     nn_weights_input_hidden := repeat (repeat (F32.lit 5 2) 8) 13;
     nn_weights_hidden_output := repeat (F32.lit (-3) 2) 8;
     appData := repeat 0 128;
     appDataSize := 0;
     effects := [] |}.

(** Healthy battery, critical risk at the placeholder confidence 0.8, not
    yet in emergency. *)
Definition critical : Globals :=
  globals (reading 80 (F32.lit 35 1))
    (result 3 (F32.lit 9 1) (F32.lit 8 1)) false.

(** Critical risk on a nearly empty battery. *)
Definition critical_low_battery : Globals :=
  globals (reading 5 (F32.lit 305 2))
    (result 3 (F32.lit 9 1) (F32.lit 8 1)) false.

(** Low risk, battery at 15 percent. *)
Definition calm_low_battery : Globals :=
  globals (reading 15 (F32.lit 31 1))
    (result 0 (F32.lit 1 1) (F32.lit 8 1)) false.

(** Medium risk while the emergency is on. *)
Definition medium_in_emergency : Globals :=
  globals (reading 80 (F32.lit 35 1))
    (result 1 (F32.lit 4 1) (F32.lit 8 1)) true.

End Sample.

(** ** Vocabulary of the statements *)

(** The interval of the risk tier, as [adjustInterval] selects it. *)
Definition tierInterval (risk : Z) : Z :=
  if 2 <=? risk then 300000 else if risk =? 1 then 900000 else 1800000.

(** What the emergency alert writes to the log: the message, then ten
    flashes of the LED. *)
Definition emergencyAlert : list effect :=
  SerialPrintln "EMERGENCY MODE ACTIVATED"
  :: concat (repeat [DigitalWrite LED_PIN true; Delay 100;
                     DigitalWrite LED_PIN false; Delay 100] 10).

(** What the critical-battery branch writes to the log. *)
Definition deepSleepEffects : list effect :=
  [ SerialPrintln "Critical battery - entering deep sleep";
    SerialPrintf "Entering deep sleep for %d seconds\n" [IntArg 14400];
    EspWifiStop; EspBtControllerDisable;
    EspSleepEnableTimerWakeup 14400000000; EspDeepSleepStart ].

(** A buffer as the radio stack hands it over: [size] is its length. *)
Definition downlink (buffer : list Z) (g : Globals) : Globals :=
  handleDownlinkCommand buffer (Z.of_nat (length buffer)) g.

(** [written pre c]: the array of the cursor holds [pre] below the write
    position, and is the 64-byte array still. *)
Definition written (pre : list Z) (c : cursor) : Prop :=
  snd c = Z.of_nat (length pre)
  /\ length (fst c) = 64%nat
  /\ take (length pre) (fst c) = pre.

(** ** The uplink wire contract *)

(** A measurement of the wire contract: the channel times its scale
    factor in [float] arithmetic, cut toward zero to a signed 16-bit
    integer that wraps, as two big-endian bytes. *)
Definition scaled_field (scale : Z) (x : float) : list Z :=
  be_bytes 2 (Int.s16 (SFtrunc (F32.mul x (F32.of_Z scale)))).

(** A measurement sent with scale 1: the channel itself, cut the same
    way. *)
Definition plain_field (x : float) : list Z :=
  be_bytes 2 (Int.s16 (SFtrunc x)).

(** A score of the inference times 1000, as an unsigned 16-bit integer. *)
Definition score_field (x : float) : list Z :=
  be_bytes 2 (Int.u16 (SFtrunc (F32.mul x (F32.of_Z 1000)))).

(** The 51 bytes of the wire contract for a snapshot, an inference result
    and the emergency flag, every field written out from the snapshot: it
    uses nothing of the encoder.  [float_bytes] is the memory image of a
    [float] on the target. *)
Definition wire_contract (float_bytes : float -> list Z) (r : SensorData)
  (ai : EdgeAIResult) (emergency : bool) : list Z :=
  be_bytes 4 (timestamp r)
  ++ float_bytes (latitude r)
  ++ float_bytes (longitude r)
  ++ float_bytes (elevation r)
  ++ scaled_field 1000 (tilt_x r)
  ++ scaled_field 1000 (tilt_y r)
  ++ scaled_field 1000 (tilt_z r)
  ++ scaled_field 100 (accel_x r)
  ++ scaled_field 100 (accel_y r)
  ++ scaled_field 100 (accel_z r)
  ++ scaled_field 1000 (gyro_x r)
  ++ scaled_field 1000 (gyro_y r)
  ++ scaled_field 1000 (gyro_z r)
  ++ plain_field (pore_pressure r)
  ++ scaled_field 10 (temperature r)
  ++ plain_field (humidity r)
  ++ plain_field (strain_gauge r)
  ++ [quality_flags r]
  ++ [battery_level r]
  ++ [(signal_strength r + 128) mod 256]
  ++ score_field (anomaly_score ai)
  ++ [risk_level ai]
  ++ score_field (confidence ai)
  ++ [if emergency then 1 else 0].


(** ** Sample hardware *)

Module SampleHw.

(** Converter readings: mid-scale tilt, a piezometer at 1.46 V, a strain
    gauge near its zero, the battery divider at [battery] counts. *)
Definition adc (battery : Z) (pin : analog_pin) : Z :=
  match pin with
  | A0 => battery
  | A1 => 0
  | A2 => 2100
  | A3 => 1990
  | A4 => 1812
  | A5 => 2040
  end.

Definition hardware (battery : Z) : Hardware :=
  {| millis_read := 1200000;
     millis_decide := 1200020;
     millis_sent := 1200950;
     analogRead := adc battery;
     mpu_acceleration :=
       {| vec_x := F32.lit 12 2; vec_y := F32.lit (-8) 2;
          vec_z := F32.lit 979 2 |};
     mpu_gyro :=
       {| vec_x := F32.lit 1 3; vec_y := F32.lit (-2) 3;
          vec_z := F32.lit 0 1 |};
     bme_readTemperature := F32.lit 215 1;
     bme_readHumidity := F32.lit 640 1;
     LoRaWAN_getRSSI := -70 |}.

(** Every call of [random(-100, 100)] answers 37. *)
Definition random (k : nat) : Z := 37.

End SampleHw.

(** The values a 12-bit converter returns. *)
Definition adc_values : list Z := map Z.of_nat (seq 0 4096).

(** Reading of a big-endian field, and of a 16-bit field as two's
    complement. *)
Definition be_decode (bytes : list Z) : Z :=
  fold_left (fun acc b => acc * 256 + b) bytes 0.

Definition signed16 (z : Z) : Z := if z <? 2 ^ 15 then z else z - 2 ^ 16.

(** Whether a function that may put the chip to sleep did so, and how a
    sensor cycle ended. *)
Definition is_deep_sleep (o : outcome) : bool :=
  match o with DeepSleep _ => true | Returns _ => false end.

Definition deep_sleeps (o : cycle_outcome) : bool :=
  match o with CycleDeepSleep _ => true | _ => false end.

Definition sends (o : cycle_outcome) : bool :=
  match o with CycleSent _ => true | _ => false end.

(** The battery level by converter counts on the battery divider. *)
Definition battery_level_of_counts (a : Z) : Z :=
  if a <? 1862 then 0
  else if a <? 1924 then 10
  else if a <? 1986 then 20
  else if a <? 2048 then 40
  else if a <? 2172 then 60
  else if a <? 2296 then 80
  else 100.

(** A value that is not NaN and carries the sign [s]. *)
Definition has_sign (s : bool) (x : spec_float) : Prop :=
  match x with
  | S754_zero s' | S754_infinity s' | S754_finite s' _ _ => s' = s
  | S754_nan => False
  end.

(** The sleep of a risk level before the battery and daytime adjustments. *)
Definition baseSleep (risk : Z) : Z :=
  match risk with
  | 3 => 30000
  | 2 => 120000
  | 1 => 300000
  | _ => 900000
  end.

(** The values [random(-100, 100)] returns. *)
Definition draws : list Z := map (fun n => Z.of_nat n - 100) (seq 0 200).

(** * Properties *)

(** ** Order of IEEE values *)

Lemma SFcompare_antisym (x y : spec_float) (c : comparison) :
  SFcompare x y = Some c -> SFcompare y x = Some (CompOpp c).
Proof.
  destruct x as [sx | sx | | sx mx ex], y as [sy | sy | | sy my ey];
    cbn [SFcompare]; try discriminate;
    try (destruct sx); try (destruct sy); intros [= <-]; try reflexivity;
    rewrite (Z.compare_antisym ex ey), !Pos.compare_cont_spec,
      (Pos.compare_antisym mx my);
    destruct (ex ?= ey), (mx ?= my)%positive; reflexivity.
Qed.

Lemma SFleb_not_ltb (x y : spec_float) : SFleb x y = true -> SFltb y x = false.
Proof.
  unfold SFleb, SFltb. destruct (SFcompare x y) as [c |] eqn:E; [| discriminate].
  rewrite (SFcompare_antisym _ _ _ E). destruct c; easy.
Qed.

(** [x < y <= z] gives [x < z], also across zeros and infinities. *)
Lemma SFltb_leb_trans (x y z : spec_float) :
  SFltb x y = true -> SFleb y z = true -> SFltb x z = true.
Proof.
  unfold SFltb, SFleb.
  destruct x as [sx | sx | | sx mx ex], y as [sy | sy | | sy my ey],
    z as [sz | sz | | sz mz ez];
    cbn [SFcompare]; try discriminate;
    try (destruct sx); try (destruct sy); try (destruct sz);
    try discriminate; try reflexivity;
    rewrite ?Pos.compare_cont_spec; unfold Pos.switch_Eq;
    destruct (Z.compare_spec ex ey), (Z.compare_spec ey ez),
      (Z.compare_spec ex ez); try discriminate; try reflexivity; try lia;
    subst;
    destruct (Pos.compare_spec mx my), (Pos.compare_spec my mz),
      (Pos.compare_spec mx mz); cbn [CompOpp];
    try discriminate; try reflexivity; lia.
Qed.

Lemma SFltb_asym (x y : spec_float) : SFltb x y = true -> SFltb y x = false.
Proof.
  unfold SFltb. destruct (SFcompare x y) as [c |] eqn:E; [| discriminate].
  rewrite (SFcompare_antisym _ _ _ E). destruct c; easy.
Qed.

(** Nothing at or above a larger constant is below a smaller one. *)
Lemma SFleb_above (lo hi s : spec_float) :
  SFltb lo hi = true -> SFleb hi s = true -> SFltb s lo = false.
Proof.
  intros Hlt Hle. apply SFltb_asym. exact (SFltb_leb_trans _ _ _ Hlt Hle).
Qed.

(** ** The policy cycle *)

(** Destructs the conditions of the goal, outermost first. *)
Ltac case_ifs :=
  repeat match goal with
         | |- context [if ?c then _ else _] => destruct c eqn:?
         end.

(** A policy step that only appends to the log or rewrites the interval
    leaves this field alone. *)
Ltac unchanged := unfold adjustInterval, adjustForBattery; case_ifs; reflexivity.

Lemma adjustInterval_emergencyMode (g : Globals) :
  emergencyMode (adjustInterval g) = emergencyMode g.
Proof. unchanged. Qed.

Lemma adjustForBattery_emergencyMode (g : Globals) :
  emergencyMode (adjustForBattery g) = emergencyMode g.
Proof. unchanged. Qed.

Lemma adjustInterval_effects (g : Globals) :
  effects (adjustInterval g) = effects g.
Proof. unchanged. Qed.

Lemma adjustForBattery_effects (g : Globals) :
  effects (adjustForBattery g) = effects g.
Proof. unchanged. Qed.

Lemma adjustInterval_reading (g : Globals) :
  currentReading (adjustInterval g) = currentReading g.
Proof. unchanged. Qed.

Lemma adjustInterval_aiResult (g : Globals) :
  aiResult (adjustInterval g) = aiResult g.
Proof. unchanged. Qed.

Lemma emergencyTransition_reading (g : Globals) :
  currentReading (emergencyTransition g) = currentReading g.
Proof. unfold emergencyTransition. case_ifs; reflexivity. Qed.

Lemma emergencyTransition_aiResult (g : Globals) :
  aiResult (emergencyTransition g) = aiResult g.
Proof. unfold emergencyTransition. case_ifs; reflexivity. Qed.

(** The emergency flag at the end of the cycle is the one the transition
    step leaves. *)
Lemma processLocalDecisions_emergencyMode (g : Globals) :
  emergencyMode (globals_of (processLocalDecisions g))
  = emergencyMode (emergencyTransition g).
Proof.
  unfold processLocalDecisions. cbv zeta.
  destruct (F64.ltb _ _); cbn [globals_of];
    [ cbn [enterDeepSleep emit emergencyMode] |];
    now rewrite adjustForBattery_emergencyMode, adjustInterval_emergencyMode.
Qed.

(** The interval at the end of the cycle depends on the risk level and the
    battery level alone. *)
Lemma processLocalDecisions_interval (g : Globals) :
  transmissionInterval (globals_of (processLocalDecisions g))
  = if battery_level (currentReading g) <? 20
    then tierInterval (risk_level (aiResult g)) * 2
    else tierInterval (risk_level (aiResult g)).
Proof.
  unfold processLocalDecisions. cbv zeta.
  set (g1 := emergencyTransition g).
  assert (Hr : currentReading g1 = currentReading g)
    by apply emergencyTransition_reading.
  assert (Ha : aiResult g1 = aiResult g) by apply emergencyTransition_aiResult.
  clearbody g1.
  destruct (F64.ltb _ _); cbn [globals_of];
    [ cbn [enterDeepSleep emit transmissionInterval] |];
    unfold adjustForBattery; rewrite adjustInterval_reading, Hr;
    unfold adjustInterval, tierInterval; rewrite Ha;
    destruct (battery_level (currentReading g) <? 20);
    destruct (2 <=? risk_level (aiResult g));
    try destruct (risk_level (aiResult g) =? 1); reflexivity.
Qed.

Lemma emit_effects (e : effect) (g : Globals) :
  effects (emit e g) = effects g ++ [e].
Proof. reflexivity. Qed.

Lemma flashLed_once (g : Globals) :
  effects (flashLed g)
  = effects g ++ [DigitalWrite LED_PIN true; Delay 100;
                  DigitalWrite LED_PIN false; Delay 100]
  /\ emergencyMode (flashLed g) = emergencyMode g.
Proof.
  split; [| reflexivity].
  unfold flashLed. cbv zeta. rewrite !emit_effects, <- !app_assoc. reflexivity.
Qed.

Lemma flashLed_effects (n : nat) (g : Globals) :
  effects (Nat.iter n flashLed g)
  = effects g
    ++ concat (repeat [DigitalWrite LED_PIN true; Delay 100;
                       DigitalWrite LED_PIN false; Delay 100] n).
Proof.
  induction n as [| n IH].
  - cbn [Nat.iter nat_rect repeat concat]. now rewrite app_nil_r.
  - rewrite Nat.iter_succ, (proj1 (flashLed_once _)), IH, <- app_assoc.
    f_equal. clear. induction n as [| n IH]; [reflexivity |].
    change (repeat ?x (S (S n))) with (x :: repeat x (S n)).
    change (repeat ?x (S n)) with (x :: repeat x n) at 1.
    cbn [concat]. rewrite <- app_assoc, IH. reflexivity.
Qed.

Lemma flashLed_emergencyMode (n : nat) (g : Globals) :
  emergencyMode (Nat.iter n flashLed g) = emergencyMode g.
Proof.
  induction n as [| n IH]; [reflexivity |].
  now rewrite Nat.iter_succ, (proj2 (flashLed_once _)).
Qed.

(** The log of the transition step, case by case. *)
Lemma emergencyTransition_effects (g : Globals) :
  effects (emergencyTransition g)
  = effects g
    ++ (if negb (emergencyMode g) && emergencyMode (emergencyTransition g)
        then emergencyAlert
        else if emergencyMode g && negb (emergencyMode (emergencyTransition g))
        then [SerialPrintln "Emergency mode deactivated"]
        else []).
Proof.
  unfold emergencyTransition. cbv zeta.
  destruct (_ && _) eqn:Henter.
  - destruct (emergencyMode g) eqn:Hmode; cbn [negb].
    + rewrite Hmode. cbn [andb negb]. now rewrite app_nil_r.
    + rewrite flashLed_effects, flashLed_emergencyMode, emit_effects.
      cbn [effects emergencyMode emit set_transmissionInterval
             set_emergencyMode andb].
      now rewrite <- app_assoc.
  - destruct (emergencyMode g) eqn:Hmode; cbn [andb negb].
    + destruct (risk_level (aiResult g) =? 0);
        cbn [emit effects set_transmissionInterval set_emergencyMode
               emergencyMode negb].
      * reflexivity.
      * rewrite Hmode. cbn [negb]. now rewrite app_nil_r.
    + rewrite Hmode. now rewrite app_nil_r.
Qed.

(** The log of the whole cycle: the transition step, then the deep-sleep
    request when the battery voltage is critical. *)
Lemma processLocalDecisions_effects (g : Globals) :
  effects (globals_of (processLocalDecisions g))
  = effects (emergencyTransition g)
    ++ (if F64.ltb (F64.of_float (battery_voltage (currentReading g)))
             CRITICAL_BATTERY_THRESHOLD
        then deepSleepEffects else []).
Proof.
  unfold processLocalDecisions. cbv zeta.
  replace (currentReading (adjustForBattery (adjustInterval (emergencyTransition g))))
    with (currentReading g).
  - destruct (F64.ltb _ _); cbn [globals_of].
    + unfold enterDeepSleep. cbv zeta.
      rewrite !emit_effects, adjustForBattery_effects, adjustInterval_effects.
      now rewrite <- !app_assoc.
    + now rewrite adjustForBattery_effects, adjustInterval_effects, app_nil_r.
  - rewrite <- (emergencyTransition_reading g), <- adjustInterval_reading.
    unfold adjustForBattery. case_ifs; reflexivity.
Qed.

Lemma emergencyAlert_cases (e : effect) :
  In e emergencyAlert ->
  e = SerialPrintln "EMERGENCY MODE ACTIVATED"
  \/ e = DigitalWrite LED_PIN true \/ e = DigitalWrite LED_PIN false
  \/ e = Delay 100.
Proof. cbn. intuition auto. Qed.

(** The emergency flag after the transition step, from the flag before and
    the inference result. *)
Lemma emergencyTransition_emergencyMode (g : Globals) :
  emergencyMode (emergencyTransition g)
  = if (risk_level (aiResult g) =? 3)
       && F64.ltb (F64.lit 7 1) (F64.of_float (confidence (aiResult g)))
    then true
    else if risk_level (aiResult g) =? 0 then false else emergencyMode g.
Proof.
  unfold emergencyTransition. cbv zeta.
  destruct (_ && _).
  - destruct (emergencyMode g) eqn:Hmode; cbn [negb]; [exact Hmode |].
    now rewrite flashLed_emergencyMode.
  - destruct (emergencyMode g) eqn:Hmode, (risk_level (aiResult g) =? 0);
      cbn [andb]; try exact Hmode; reflexivity.
Qed.

(** C1.  At a critical reading with confidence 0.8, outside emergency mode:
    the transition step enters emergency mode and sets the interval to
    60000 ms, and the cycle then ends in emergency mode with the interval of
    the risk tier, 300000 ms.  No cycle at all ends with an interval of
    60000 ms. *)
Theorem C1_emergency_interval_is_overwritten :
  (emergencyMode (emergencyTransition Sample.critical) = true
   /\ transmissionInterval (emergencyTransition Sample.critical) = 60000
   /\ emergencyMode (globals_of (processLocalDecisions Sample.critical)) = true
   /\ transmissionInterval (globals_of (processLocalDecisions Sample.critical))
      = 300000)
  /\ (forall g : Globals,
         (transmissionInterval (globals_of (processLocalDecisions g)) =? 60000)
         = false).
Proof.
  split; [vm_compute; repeat split |].
  intros g. rewrite processLocalDecisions_interval. unfold tierInterval.
  case_ifs; reflexivity.
Qed.

(** C4.  [shouldTransmitData] answers true exactly when emergency mode is
    on, or the time since the last transmission (the wrapped difference of
    the clock and [lastTransmission]) has reached the interval, or the risk
    level is at least 2; it answers false exactly in the remaining case. *)
Theorem C4_shouldTransmitData_iff (millis : Z) (g : Globals) :
  (shouldTransmitData millis g = true <->
   emergencyMode g = true
   \/ transmissionInterval g <= Int.u32 (millis - lastTransmission g)
   \/ 2 <= risk_level (aiResult g))
  /\ (shouldTransmitData millis g = false <->
      emergencyMode g = false
      /\ Int.u32 (millis - lastTransmission g) < transmissionInterval g
      /\ risk_level (aiResult g) < 2).
Proof.
  unfold shouldTransmitData. cbv zeta.
  destruct (emergencyMode g);
    destruct (Z.leb_spec (transmissionInterval g)
                (Int.u32 (millis - lastTransmission g)));
    destruct (Z.leb_spec 2 (risk_level (aiResult g)));
    intuition (try discriminate; try lia).
Qed.

(** C5.  Over one cycle started outside emergency mode, emergency mode is
    on at the end exactly when the risk level is 3 and the confidence is
    strictly above 0.7; it stays off at risk level 3 when the confidence
    is not above 0.7, in particular when it is the [float] 0.7.  The effects of the alert are among those the cycle adds to
    the log exactly when the flag goes from false to true, and then the
    added effects start with the whole alert. *)
Theorem C5_emergency_entry (g : Globals) :
  let g' := globals_of (processLocalDecisions g) in
  let added := drop (length (effects g)) (effects g') in
  (emergencyMode g = false ->
   (emergencyMode g' = true <->
    risk_level (aiResult g) = 3
    /\ F64.ltb (F64.lit 7 1) (F64.of_float (confidence (aiResult g))) = true))
  /\ (emergencyMode g = false ->
      risk_level (aiResult g) = 3 ->
      F64.leb (F64.of_float (confidence (aiResult g))) (F64.lit 7 1) = true ->
      emergencyMode g' = false)
  /\ (emergencyMode g = false ->
      risk_level (aiResult g) = 3 ->
      confidence (aiResult g) = F32.lit 7 1 ->
      emergencyMode g' = false)
  /\ (forall e, In e emergencyAlert ->
      (In e added <-> emergencyMode g = false /\ emergencyMode g' = true))
  /\ (emergencyMode g = false -> emergencyMode g' = true ->
      take (length emergencyAlert) added = emergencyAlert).
Proof.
  cbv zeta.
  rewrite processLocalDecisions_emergencyMode, processLocalDecisions_effects,
    emergencyTransition_effects, <- app_assoc, drop_app_length.
  rewrite emergencyTransition_emergencyMode.
  split; [| split; [| split; [| split]]].
  - intros Hmode. rewrite Hmode. split.
    + intros H.
      destruct (risk_level (aiResult g) =? 3) eqn:E3; cbn [andb] in H.
      * apply Z.eqb_eq in E3. split; [exact E3 |].
        destruct (F64.ltb _ _); [reflexivity |].
        destruct (risk_level (aiResult g) =? 0); discriminate.
      * destruct (risk_level (aiResult g) =? 0); discriminate.
    + intros [H3 Hc]. now rewrite H3, Hc.
  - intros Hmode H3 Hle. rewrite H3, Hmode.
    apply SFleb_not_ltb in Hle. unfold F64.ltb. now rewrite Hle.
  - intros Hmode H3 Hc. rewrite H3, Hmode, Hc. reflexivity.
  - intros e He. apply emergencyAlert_cases in He.
    set (on' := if _ && _ then true else _). clearbody on'. split.
    + intros Hin.
      destruct (emergencyMode g), on', (F64.ltb _ _);
        cbn [negb andb] in Hin; try (now split); exfalso;
        cbn in Hin; intuition (subst; discriminate).
    + intros [Hmode Hon]. rewrite Hmode, Hon. cbn [negb andb].
      apply in_or_app. left.
      destruct He as [-> | [-> | [-> | ->]]]; cbn; auto 8.
  - set (on' := if _ && _ then true else _). clearbody on'.
    intros Hmode Hon. rewrite Hmode, Hon. cbn [negb andb].
    apply take_app_length.
Qed.

Lemma C5_emergency_entry_witness :
  emergencyMode (globals_of (processLocalDecisions Sample.critical)) = true
  /\ emergencyMode
       (globals_of
          (processLocalDecisions
             (Sample.globals (Sample.reading 80 (F32.lit 35 1))
                (Sample.result 3 (F32.lit 9 1) (F32.lit 7 1)) false))) = false.
Proof.
  split.
  - apply (proj1 (C5_emergency_entry Sample.critical));
      [reflexivity | split; reflexivity].
  - apply (proj1 (proj2 (proj2 (C5_emergency_entry
             (Sample.globals (Sample.reading 80 (F32.lit 35 1))
                (Sample.result 3 (F32.lit 9 1) (F32.lit 7 1)) false)))));
      reflexivity.
Defined.

(** C6.  Over one cycle started in emergency mode, emergency mode is off at
    the end exactly when the risk level is 0, whatever the confidence; at
    risk level 1 or 2 it stays on. *)
Theorem C6_emergency_exit (g : Globals) :
  emergencyMode g = true ->
  let g' := globals_of (processLocalDecisions g) in
  (emergencyMode g' = false <-> risk_level (aiResult g) = 0)
  /\ (risk_level (aiResult g) = 1 \/ risk_level (aiResult g) = 2 ->
      emergencyMode g' = true).
Proof.
  intros Hmode. cbv zeta.
  rewrite processLocalDecisions_emergencyMode,
    emergencyTransition_emergencyMode, Hmode.
  destruct (Z.eqb_spec (risk_level (aiResult g)) 3) as [H3 | H3];
    destruct (Z.eqb_spec (risk_level (aiResult g)) 0) as [H0 | H0];
    cbn [andb]; try destruct (F64.ltb _ _);
    intuition (try discriminate; try lia).
Qed.

Lemma C6_emergency_exit_witness :
  emergencyMode (globals_of (processLocalDecisions Sample.medium_in_emergency))
  = true.
Proof.
  apply (proj2 (C6_emergency_exit Sample.medium_in_emergency eq_refl)).
  left. reflexivity.
Defined.

(** C7.  At risk level 0 and battery level 15 the interval at the end of the
    cycle is 3600000 ms, in or out of emergency mode; at a battery level of
    20 or more it is the interval of the tier: 300000 ms at risk level 2 or
    3, 900000 ms at risk level 1, 1800000 ms at risk level 0. *)
Theorem C7_low_battery_doubling (g : Globals) :
  let g' := globals_of (processLocalDecisions g) in
  (risk_level (aiResult g) = 0 -> battery_level (currentReading g) = 15 ->
   transmissionInterval g' = 3600000)
  /\ (20 <= battery_level (currentReading g) ->
      (risk_level (aiResult g) = 2 \/ risk_level (aiResult g) = 3 ->
       transmissionInterval g' = 300000)
      /\ (risk_level (aiResult g) = 1 -> transmissionInterval g' = 900000)
      /\ (risk_level (aiResult g) = 0 -> transmissionInterval g' = 1800000)).
Proof.
  cbv zeta. rewrite processLocalDecisions_interval. split.
  - intros -> ->. reflexivity.
  - intros Hbat.
    destruct (Z.ltb_spec (battery_level (currentReading g)) 20); [lia |].
    repeat split; [intros [-> | ->] | intros -> | intros ->]; reflexivity.
Qed.

Lemma C7_low_battery_doubling_witness :
  transmissionInterval (globals_of (processLocalDecisions Sample.calm_low_battery))
  = 3600000
  /\ transmissionInterval (globals_of (processLocalDecisions Sample.critical))
     = 300000.
Proof.
  split.
  - apply (proj1 (C7_low_battery_doubling Sample.calm_low_battery));
      reflexivity.
  - apply (proj2 (C7_low_battery_doubling Sample.critical)).
    + cbn. lia.
    + right. reflexivity.
Defined.

(** ** Downlink commands *)

(** C8.  Command 0x01 with value byte [v] leaves the interval at
    [v * 60000] ms, 600000 ms for [v = 10]; a buffer of fewer than 2 bytes
    leaves the globals as they were, log included. *)
Theorem C8_downlink_interval_and_short_buffer :
  (forall (v : Z) (rest : list Z) (g : Globals),
      0 <= v < 256 ->
      transmissionInterval (downlink (1 :: v :: rest) g) = v * 60000)
  /\ (forall (rest : list Z) (g : Globals),
         transmissionInterval (downlink (1 :: 10 :: rest) g) = 600000)
  /\ (forall (buffer : list Z) (g : Globals),
         (length buffer < 2)%nat -> downlink buffer g = g).
Proof.
  assert (Hset : forall v rest g, 0 <= v < 256 ->
            transmissionInterval (downlink (1 :: v :: rest) g) = v * 60000).
  { intros v rest g Hv. unfold downlink, handleDownlinkCommand.
    destruct (Z.ltb_spec (Z.of_nat (length (1 :: v :: rest))) 2) as [Hlt | _].
    - cbn [length] in Hlt. lia.
    - cbn [byte_at nth emit set_transmissionInterval transmissionInterval].
      unfold Int.u32. rewrite Z.mod_small; lia. }
  split; [exact Hset | split].
  - intros rest g. apply (Hset 10). lia.
  - intros buffer g Hlen. unfold downlink, handleDownlinkCommand.
    destruct (Z.ltb_spec (Z.of_nat (length buffer)) 2); [reflexivity | lia].
Qed.

Lemma C8_downlink_interval_and_short_buffer_witness :
  transmissionInterval (downlink [1; 10] Sample.critical) = 10 * 60000
  /\ downlink [1] Sample.critical = Sample.critical.
Proof.
  split.
  - apply (proj1 C8_downlink_interval_and_short_buffer). lia.
  - apply (proj2 (proj2 C8_downlink_interval_and_short_buffer)).
    cbn [length]. lia.
Defined.

(** C10.  A buffer of at least 2 bytes whose command byte is neither 0x01
    nor 0x02 leaves the interval, the time of the last transmission, the
    emergency flag and the failure counter as they were. *)
Theorem C10_other_commands_keep_policy_state
  (buffer : list Z) (g : Globals) :
  (2 <= length buffer)%nat ->
  byte_at buffer 0 <> 1 ->
  byte_at buffer 0 <> 2 ->
  let g' := downlink buffer g in
  transmissionInterval g' = transmissionInterval g
  /\ lastTransmission g' = lastTransmission g
  /\ emergencyMode g' = emergencyMode g
  /\ failedTransmissions g' = failedTransmissions g.
Proof.
  intros Hlen H1 H2. unfold downlink, handleDownlinkCommand. cbv zeta.
  destruct (Z.ltb_spec (Z.of_nat (length buffer)) 2); [lia |].
  destruct (byte_at buffer 0) as [| p | p]; [repeat split | | repeat split].
  destruct p as [[q | q |] | [[q | q |] | [q | q |] |] |];
    try congruence; repeat split.
Qed.

Lemma C10_other_commands_keep_policy_state_witness :
  transmissionInterval (downlink [3; 0] Sample.critical) = 1800000
  /\ transmissionInterval (downlink [4; 90] Sample.critical) = 1800000
  /\ transmissionInterval (downlink [255; 7; 7] Sample.critical) = 1800000.
Proof.
  split; [| split].
  - refine (proj1 (C10_other_commands_keep_policy_state [3; 0]
                     Sample.critical _ _ _)); cbn; lia.
  - refine (proj1 (C10_other_commands_keep_policy_state [4; 90]
                     Sample.critical _ _ _)); cbn; lia.
  - refine (proj1 (C10_other_commands_keep_policy_state [255; 7; 7]
                     Sample.critical _ _ _)); cbn; lia.
Defined.

(** ** Risk level *)

(** The risk level [runEdgeAI] stores is the one of the score it stores. *)
Lemma runEdgeAI_risk_level (exp : double -> double) (g : Globals) :
  risk_level (aiResult (runEdgeAI exp g))
  = riskLevel (anomaly_score (aiResult (runEdgeAI exp g))).
Proof. reflexivity. Qed.

(** The cuts between the levels sit at the [float] values 0.3, 0.6 and
    0.8: each of these gets the higher level, the [float] just below it the
    lower one. *)
Lemma riskLevel_cut_points :
  riskLevel (SFpred F32.prec F32.emax (F32.lit 3 1)) = 0
  /\ riskLevel (F32.lit 3 1) = 1
  /\ riskLevel (SFpred F32.prec F32.emax (F32.lit 6 1)) = 1
  /\ riskLevel (F32.lit 6 1) = 2
  /\ riskLevel (SFpred F32.prec F32.emax (F32.lit 8 1)) = 2
  /\ riskLevel (F32.lit 8 1) = 3.
Proof. vm_compute. repeat split. Qed.

(** C9.  For the result [runEdgeAI] stores, with the comparisons of the
    promoted score against the [double] literals: the risk level is 0 for a
    score in [0, 0.3), 1 in [0.3, 0.6), 2 in [0.6, 0.8) and 3 in [0.8, 1.0].
    The [float] scores 0.3, 0.6 and 0.8 get 1, 2 and 3. *)
Theorem C9_risk_level_thresholds (exp : double -> double) (g : Globals) :
  let ai := aiResult (runEdgeAI exp g) in
  let s := F64.of_float (anomaly_score ai) in
  (F64.leb (F64.of_Z 0) s = true -> F64.ltb s (F64.lit 3 1) = true ->
   risk_level ai = 0)
  /\ (F64.leb (F64.lit 3 1) s = true -> F64.ltb s (F64.lit 6 1) = true ->
      risk_level ai = 1)
  /\ (F64.leb (F64.lit 6 1) s = true -> F64.ltb s (F64.lit 8 1) = true ->
      risk_level ai = 2)
  /\ (F64.leb (F64.lit 8 1) s = true -> F64.leb s (F64.lit 10 1) = true ->
      risk_level ai = 3)
  /\ riskLevel (F32.lit 3 1) = 1
  /\ riskLevel (F32.lit 6 1) = 2
  /\ riskLevel (F32.lit 8 1) = 3.
Proof.
  cbv zeta. rewrite runEdgeAI_risk_level.
  set (score := anomaly_score _). clearbody score.
  unfold riskLevel, F64.ltb, F64.leb.
  assert (H36 : SFltb (F64.lit 3 1) (F64.lit 6 1) = true) by reflexivity.
  assert (H38 : SFltb (F64.lit 3 1) (F64.lit 8 1) = true) by reflexivity.
  assert (H68 : SFltb (F64.lit 6 1) (F64.lit 8 1) = true) by reflexivity.
  split; [| split; [| split; [| split]]].
  - intros _ H. now rewrite H.
  - intros Hlo Hhi. now rewrite (SFleb_not_ltb _ _ Hlo), Hhi.
  - intros Hlo Hhi.
    now rewrite (SFleb_above _ _ _ H36 Hlo), (SFleb_not_ltb _ _ Hlo), Hhi.
  - intros Hlo _.
    now rewrite (SFleb_above _ _ _ H38 Hlo), (SFleb_above _ _ _ H68 Hlo),
      (SFleb_not_ltb _ _ Hlo).
  - repeat split.
Qed.

Lemma C9_risk_level_thresholds_witness :
  risk_level (aiResult (runEdgeAI (fun _ => F64.of_Z 9) Sample.critical)) = 0
  /\ risk_level (aiResult (runEdgeAI (fun _ => F64.of_Z 1) Sample.critical)) = 1
  /\ risk_level (aiResult (runEdgeAI (fun _ => F64.lit 3 1) Sample.critical))
     = 2
  /\ risk_level (aiResult (runEdgeAI (fun _ => F64.of_Z 0) Sample.critical)) = 3.
Proof.
  split; [| split; [| split]].
  - apply (proj1 (C9_risk_level_thresholds (fun _ => F64.of_Z 9)
                    Sample.critical)); reflexivity.
  - apply (proj1 (proj2 (C9_risk_level_thresholds (fun _ => F64.of_Z 1)
                           Sample.critical))); reflexivity.
  - apply (proj1 (proj2 (proj2 (C9_risk_level_thresholds
                                  (fun _ => F64.lit 3 1) Sample.critical))));
      reflexivity.
  - apply (proj1 (proj2 (proj2 (proj2 (C9_risk_level_thresholds
                                         (fun _ => F64.of_Z 0)
                                         Sample.critical)))));
      reflexivity.
Defined.

(** ** Uplink frame *)

Lemma byte_of_shift (z : Z) (k : nat) :
  Int.u8 (Z.land (Z.shiftr z (8 * Z.of_nat k)) 255)
  = (z / 256 ^ Z.of_nat k) mod 256.
Proof.
  unfold Int.u8. change 255 with (Z.ones 8).
  rewrite Z.land_ones, Z.shiftr_div_pow2, Z.mod_mod by lia.
  change 256 with (2 ^ 8). now rewrite <- Z.pow_mul_r by lia.
Qed.

Lemma be_bytes_2 (z : Z) :
  be_bytes 2 z = [ Int.u8 (Z.land (Z.shiftr z 8) 255); Int.u8 (Z.land z 255) ].
Proof.
  unfold be_bytes. cbn [seq rev app map].
  rewrite <- !byte_of_shift. reflexivity.
Qed.

Lemma be_bytes_4 (z : Z) :
  be_bytes 4 z
  = [ Int.u8 (Z.land (Z.shiftr z 24) 255); Int.u8 (Z.land (Z.shiftr z 16) 255);
      Int.u8 (Z.land (Z.shiftr z 8) 255); Int.u8 (Z.land z 255) ].
Proof.
  unfold be_bytes. cbn [seq rev app map].
  rewrite <- !byte_of_shift. reflexivity.
Qed.

Lemma written_start (payload : list Z) :
  length payload = 64%nat -> written [] (payload, 0).
Proof. intros H. repeat split. exact H. Qed.

Lemma written_store (b : Z) (pre : list Z) (c : cursor) :
  written pre c -> (length pre < 64)%nat -> written (pre ++ [b]) (store b c).
Proof.
  destruct c as [payload index]. unfold written, store. cbn [fst snd].
  intros (-> & Hlen & Hpre) Hroom. rewrite Nat2Z.id, length_app, length_insert.
  cbn [length]. split; [lia | split; [exact Hlen |]].
  rewrite <- (take_drop (length pre) payload) at 1. rewrite Hpre.
  rewrite insert_app_r_alt by lia. rewrite Nat.sub_diag.
  destruct (drop (length pre) payload) as [| x rest] eqn:Hdrop.
  - apply (f_equal length) in Hdrop. rewrite length_drop in Hdrop.
    cbn [length] in Hdrop. lia.
  - change (<[0%nat:=b]> (x :: rest)) with (b :: rest).
    rewrite (cons_middle b pre rest), app_assoc.
    apply take_app_length'. rewrite length_app. reflexivity.
Qed.

Lemma written_list_inserts (bs pre : list Z) (c : cursor) :
  written pre c -> (length pre + length bs <= 64)%nat ->
  written (pre ++ bs)
    (list_inserts (Z.to_nat (snd c)) bs (fst c),
     snd c + Z.of_nat (length bs)).
Proof.
  destruct c as [payload index]. unfold written. cbn [fst snd].
  intros (-> & Hlen & Hpre) Hroom.
  rewrite Nat2Z.id, length_app, length_inserts.
  split; [lia | split; [exact Hlen |]].
  rewrite <- (take_drop (length pre) payload) at 1. rewrite Hpre.
  set (tail := drop (length pre) payload).
  assert (Htail : (length bs <= length tail)%nat)
    by (subst tail; rewrite length_drop; lia).
  replace (list_inserts (length pre) bs (pre ++ tail))
    with (pre ++ list_inserts 0 bs tail)
    by (now rewrite <- list_inserts_app_r, Nat.add_0_r).
  rewrite <- (take_drop (length bs) tail).
  rewrite list_inserts_0_r by (rewrite length_take; lia).
  rewrite app_assoc. apply take_app_length'. now rewrite length_app.
Qed.

Lemma written_memcpy_float (float_bytes : float -> list Z) (x : float)
  (pre : list Z) (c : cursor) :
  length (float_bytes x) = 4%nat ->
  written pre c -> (length pre + 4 <= 64)%nat ->
  written (pre ++ float_bytes x) (memcpy_float float_bytes x c).
Proof.
  intros Hfb Hw Hroom. unfold memcpy_float.
  rewrite take_ge by lia.
  replace 4 with (Z.of_nat (length (float_bytes x))) by now rewrite Hfb.
  apply written_list_inserts; [exact Hw | lia].
Qed.

Lemma length_be_bytes (n : nat) (z : Z) : length (be_bytes n z) = n.
Proof. unfold be_bytes. now rewrite length_map, length_rev, length_seq. Qed.

Lemma length_uplink_layout (float_bytes : float -> list Z) (g : Globals) :
  (forall x, length (float_bytes x) = 4%nat) ->
  length (uplink_layout float_bytes g) = 51%nat.
Proof.
  intros Hfb. unfold uplink_layout, measurements. cbv zeta.
  cbn [map concat]. rewrite !length_app, !Hfb, !length_be_bytes.
  reflexivity.
Qed.

(** Room left in the array, for the chain of stores below. *)
Ltac frame_room Hfb := rewrite ?length_app, ?Hfb; cbn [length]; lia.

(** Follows the stores of [prepareTxFrame] back to the empty array. *)
Ltac frame_chain Hfb :=
  lazymatch goal with
  | |- written _ (store _ _) =>
      eapply written_store; [frame_chain Hfb | frame_room Hfb]
  | |- written _ (memcpy_float _ _ _) =>
      eapply written_memcpy_float;
      [apply Hfb | frame_chain Hfb | frame_room Hfb]
  | |- written _ (_, 0) => apply written_start; assumption
  end.

(** The layout the encoder is compared with is the wire contract. *)
Lemma wire_contract_uplink_layout (float_bytes : float -> list Z)
  (g : Globals) :
  wire_contract float_bytes (currentReading g) (aiResult g) (emergencyMode g)
  = uplink_layout float_bytes g.
Proof.
  unfold wire_contract, uplink_layout, measurements, scaled_field,
    plain_field, score_field, F32.to_s16, F32.to_u16.
  cbv zeta. cbn [map concat]. rewrite app_nil_r, <- !app_assoc.
  reflexivity.
Qed.

(** C3.  Whatever the four bytes of a [float] in memory are, and whatever
    the uninitialised array holds: the frame handed to the radio stack is 51
    bytes long and is the wire contract of the snapshot, the inference
    result and the emergency flag, that is the timestamp as 4 big-endian
    bytes, the three position floats, then as big-endian signed 16-bit
    values the three tilts times 1000, the three accelerations times 100,
    the three rotation rates times 1000, the pore pressure, the temperature
    times 10, the humidity and the strain, then quality flags, battery
    level, signal strength plus 128, the anomaly score times 1000 as 2
    big-endian bytes, the risk level, the confidence times 1000 as 2
    big-endian bytes and the emergency flag.  [appData] is the buffer of
    the radio stack, taken to hold at least the frame. *)
Theorem C3_uplink_frame_layout
  (float_bytes : float -> list Z) (payload : list Z) (g : Globals) :
  (forall x, length (float_bytes x) = 4%nat) ->
  length payload = 64%nat ->
  (51 <= length (appData g))%nat ->
  let g' := prepareTxFrame float_bytes payload g in
  appDataSize g' = 51
  /\ length (uplinkFrame g') = 51%nat
  /\ uplinkFrame g'
     = wire_contract float_bytes (currentReading g) (aiResult g)
         (emergencyMode g).
Proof.
  intros Hfb Hpay Happ. rewrite wire_contract_uplink_layout.
  assert (Hframe : let g' := prepareTxFrame float_bytes payload g in
            appDataSize g' = 51
            /\ uplinkFrame g' = uplink_layout float_bytes g).
  { unfold uplinkFrame, prepareTxFrame. cbv zeta.
    cbn [appDataSize appData emit set_appData].
    match goal with |- context [snd ?c] => set (cur := c) end.
    assert (Hw : exists bs,
               written bs cur /\ bs = uplink_layout float_bytes g).
    { eexists. split.
      - subst cur. cbn [fold_left seq nth measurements]. frame_chain Hfb.
      - unfold uplink_layout, measurements. cbv zeta. cbn [map concat].
        rewrite be_bytes_4, !be_bytes_2, <- !app_assoc. reflexivity. }
    destruct Hw as (bs & (Hidx & _ & Htake) & Hbs).
    assert (Hlen : length bs = 51%nat)
      by (rewrite Hbs; now apply length_uplink_layout).
    rewrite Hidx, Hlen in *. clearbody cur.
    split; [reflexivity |].
    change (Z.to_nat (Z.of_nat 51)) with 51%nat. rewrite Htake.
    rewrite <- (take_drop 51 (appData g)).
    rewrite list_inserts_0_r by (rewrite length_take; lia).
    rewrite <- Hbs. apply take_app_length'. now rewrite Hlen. }
  cbv zeta in *. destruct Hframe as [Hsize Hlayout].
  split; [exact Hsize | split; [| exact Hlayout]].
  rewrite Hlayout. now apply length_uplink_layout.
Qed.

Lemma C3_uplink_frame_layout_witness :
  let g' := prepareTxFrame esp32_float_bytes (repeat 170 64) Sample.critical in
  appDataSize g' = 51
  /\ length (uplinkFrame g') = 51%nat
  /\ uplinkFrame g'
     = wire_contract esp32_float_bytes (currentReading Sample.critical)
         (aiResult Sample.critical) (emergencyMode Sample.critical).
Proof.
  apply (C3_uplink_frame_layout esp32_float_bytes (repeat 170 64)
           Sample.critical).
  - intros x. reflexivity.
  - reflexivity.
  - cbn. lia.
Defined.


(** * Further properties *)

(** ** More on the order of IEEE values *)

Lemma SFleb_trans (x y z : spec_float) :
  SFleb x y = true -> SFleb y z = true -> SFleb x z = true.
Proof.
  unfold SFleb.
  destruct x as [sx | sx | | sx mx ex], y as [sy | sy | | sy my ey],
    z as [sz | sz | | sz mz ez];
    cbn [SFcompare]; try discriminate;
    try (destruct sx); try (destruct sy); try (destruct sz);
    try discriminate; try reflexivity;
    rewrite ?Pos.compare_cont_spec; unfold Pos.switch_Eq;
    destruct (Z.compare_spec ex ey), (Z.compare_spec ey ez),
      (Z.compare_spec ex ez); try discriminate; try reflexivity; try lia;
    subst;
    destruct (Pos.compare_spec mx my), (Pos.compare_spec my mz),
      (Pos.compare_spec mx mz); cbn [CompOpp];
    try discriminate; try reflexivity; lia.
Qed.

(** [x <= y < z] gives [x < z]. *)
Lemma SFleb_ltb_trans (x y z : spec_float) :
  SFleb x y = true -> SFltb y z = true -> SFltb x z = true.
Proof.
  unfold SFltb, SFleb.
  destruct x as [sx | sx | | sx mx ex], y as [sy | sy | | sy my ey],
    z as [sz | sz | | sz mz ez];
    cbn [SFcompare]; try discriminate;
    try (destruct sx); try (destruct sy); try (destruct sz);
    try discriminate; try reflexivity;
    rewrite ?Pos.compare_cont_spec; unfold Pos.switch_Eq;
    destruct (Z.compare_spec ex ey), (Z.compare_spec ey ez),
      (Z.compare_spec ex ez); try discriminate; try reflexivity; try lia;
    subst;
    destruct (Pos.compare_spec mx my), (Pos.compare_spec my mz),
      (Pos.compare_spec mx mz); cbn [CompOpp];
    try discriminate; try reflexivity; lia.
Qed.

(** A comparison with NaN is false. *)
Lemma SFleb_nan_r (x : spec_float) : SFleb x S754_nan = false.
Proof. now destruct x. Qed.

Lemma SFleb_nan_l (x : spec_float) : SFleb S754_nan x = false.
Proof. reflexivity. Qed.

(** ** Battery level and risk level *)

(** X1.  The battery level is between 0 and 100 for every voltage, also
    one that is NaN or infinite; it is 0 for NaN, which fails every
    comparison; and it grows with the voltage, in the order of the promoted
    values. *)
Theorem X1_battery_level_monotone (v1 v2 : float) :
  0 <= calculateBatteryLevel v1 <= 100
  /\ calculateBatteryLevel S754_nan = 0
  /\ (F64.leb (F64.of_float v1) (F64.of_float v2) = true ->
      calculateBatteryLevel v1 <= calculateBatteryLevel v2).
Proof.
  split; [| split; [reflexivity |]].
  - unfold calculateBatteryLevel. cbv zeta. case_ifs; lia.
  - unfold calculateBatteryLevel, F64.leb. cbv zeta. intros Hle.
    assert (Hup : forall t, SFleb t (F64.of_float v1) = true ->
                            SFleb t (F64.of_float v2) = true)
      by (intros t Ht; exact (SFleb_trans _ _ _ Ht Hle)).
    repeat match goal with
           | |- context [SFleb ?t (F64.of_float v1)] =>
               let E := fresh "E" in
               destruct (SFleb t (F64.of_float v1)) eqn:E;
               [rewrite (Hup _ E) |]
           end;
      case_ifs; lia.
Qed.

Lemma X1_battery_level_monotone_witness :
  0 <= calculateBatteryLevel S754_nan <= 100
  /\ calculateBatteryLevel (F32.lit 305 2)
     <= calculateBatteryLevel (F32.lit 36 1).
Proof.
  split.
  - exact (proj1 (X1_battery_level_monotone S754_nan S754_nan)).
  - apply (proj2 (proj2 (X1_battery_level_monotone (F32.lit 305 2)
                           (F32.lit 36 1)))).
    reflexivity.
Defined.

(** X2.  The risk level grows with the anomaly score, in the order of the
    promoted values, and is between 0 and 3; a score that is NaN gets 3. *)
Theorem X2_risk_level_monotone (s1 s2 : float) :
  (F64.leb (F64.of_float s1) (F64.of_float s2) = true ->
   0 <= riskLevel s1 /\ riskLevel s1 <= riskLevel s2 /\ riskLevel s2 <= 3)
  /\ riskLevel S754_nan = 3.
Proof.
  split; [| reflexivity].
  unfold riskLevel, F64.leb, F64.ltb. intros Hle.
  assert (Hup : forall t, SFltb (F64.of_float s2) t = true ->
                          SFltb (F64.of_float s1) t = true)
    by (intros t Ht; exact (SFleb_ltb_trans _ _ _ Hle Ht)).
  repeat match goal with
         | |- context [SFltb (F64.of_float s2) ?t] =>
             let E := fresh "E" in
             destruct (SFltb (F64.of_float s2) t) eqn:E;
             [rewrite (Hup _ E) |]
         end;
    case_ifs; lia.
Qed.

Lemma X2_risk_level_monotone_witness :
  0 <= riskLevel (F32.lit 45 2)
  /\ riskLevel (F32.lit 45 2) <= riskLevel (F32.lit 85 2)
  /\ riskLevel (F32.lit 85 2) <= 3.
Proof.
  apply (proj1 (X2_risk_level_monotone (F32.lit 45 2) (F32.lit 85 2))).
  reflexivity.
Defined.

(** ** Reading validation *)

(** Each bit of the mask is the test of one channel group. *)
Lemma validateSensorReadings_bits (r : SensorData) :
  0 <= validateSensorReadings r < 64
  /\ Z.testbit (validateSensorReadings r) 0
     = F64.leb (F64.of_float (abs (tilt_x r))) (F64.lit 10 1)
       && F64.leb (F64.of_float (abs (tilt_y r))) (F64.lit 10 1)
  /\ Z.testbit (validateSensorReadings r) 1
     = SFleb (abs (accel_x r)) (F32.of_Z 20)
       && SFleb (abs (accel_y r)) (F32.of_Z 20)
       && SFleb (F32.of_Z 5) (accel_z r)
       && SFleb (accel_z r) (F32.of_Z 15)
  /\ Z.testbit (validateSensorReadings r) 2
     = SFleb (abs (gyro_x r)) (F32.of_Z 10)
       && SFleb (abs (gyro_y r)) (F32.of_Z 10)
       && SFleb (abs (gyro_z r)) (F32.of_Z 10)
  /\ Z.testbit (validateSensorReadings r) 3
     = SFleb (F32.of_Z 0) (pore_pressure r)
       && SFleb (pore_pressure r) (F32.of_Z 1000)
  /\ Z.testbit (validateSensorReadings r) 4
     = SFleb (F32.of_Z (-40)) (temperature r)
       && SFleb (temperature r) (F32.of_Z 70)
       && SFleb (F32.of_Z 0) (humidity r)
       && SFleb (humidity r) (F32.of_Z 100)
  /\ Z.testbit (validateSensorReadings r) 5
     = SFleb (abs (strain_gauge r)) (F32.of_Z 1000).
Proof.
  unfold validateSensorReadings. cbv zeta.
  case_ifs; vm_compute; repeat split; discriminate.
Qed.

(** X3.  The quality mask has no bit above bit 5, and bit k is set exactly
    when channel group k passes its test: tilt within 1.0; acceleration
    within 20 on x and y and between 5 and 15 on z; rotation within 10; pore
    pressure between 0 and 1000; temperature between -40 and 70 with
    humidity between 0 and 100; strain within 1000.  A channel that reads
    NaN leaves the bit of its group clear. *)
Theorem X3_quality_mask (r : SensorData) :
  let f := validateSensorReadings r in
  0 <= f < 64
  /\ Z.testbit f 0
     = F64.leb (F64.of_float (abs (tilt_x r))) (F64.lit 10 1)
       && F64.leb (F64.of_float (abs (tilt_y r))) (F64.lit 10 1)
  /\ Z.testbit f 1
     = SFleb (abs (accel_x r)) (F32.of_Z 20)
       && SFleb (abs (accel_y r)) (F32.of_Z 20)
       && SFleb (F32.of_Z 5) (accel_z r)
       && SFleb (accel_z r) (F32.of_Z 15)
  /\ Z.testbit f 2
     = SFleb (abs (gyro_x r)) (F32.of_Z 10)
       && SFleb (abs (gyro_y r)) (F32.of_Z 10)
       && SFleb (abs (gyro_z r)) (F32.of_Z 10)
  /\ Z.testbit f 3
     = SFleb (F32.of_Z 0) (pore_pressure r)
       && SFleb (pore_pressure r) (F32.of_Z 1000)
  /\ Z.testbit f 4
     = SFleb (F32.of_Z (-40)) (temperature r)
       && SFleb (temperature r) (F32.of_Z 70)
       && SFleb (F32.of_Z 0) (humidity r)
       && SFleb (humidity r) (F32.of_Z 100)
  /\ Z.testbit f 5 = SFleb (abs (strain_gauge r)) (F32.of_Z 1000)
  /\ (tilt_x r = S754_nan \/ tilt_y r = S754_nan -> Z.testbit f 0 = false)
  /\ (accel_x r = S754_nan \/ accel_y r = S754_nan \/ accel_z r = S754_nan ->
      Z.testbit f 1 = false)
  /\ (gyro_x r = S754_nan \/ gyro_y r = S754_nan \/ gyro_z r = S754_nan ->
      Z.testbit f 2 = false)
  /\ (pore_pressure r = S754_nan -> Z.testbit f 3 = false)
  /\ (temperature r = S754_nan \/ humidity r = S754_nan ->
      Z.testbit f 4 = false)
  /\ (strain_gauge r = S754_nan -> Z.testbit f 5 = false).
Proof.
  cbv zeta.
  destruct (validateSensorReadings_bits r)
    as (Hr & H0 & H1 & H2 & H3 & H4 & H5).
  repeat (split; [assumption |]).
  rewrite H0, H1, H2, H3, H4, H5. unfold F64.leb.
  split; [| split; [| split; [| split; [| split]]]];
    intros H; repeat (destruct H as [H | H]); rewrite H;
    cbn [abs SFabs F64.of_float]; rewrite ?SFleb_nan_r, ?SFleb_nan_l;
    rewrite ?andb_false_r; reflexivity.
Qed.

Lemma X3_quality_mask_witness :
  Z.testbit (validateSensorReadings
               (Sample.reading 80 (F32.lit 35 1))) 0 = true
  /\ Z.testbit
       (validateSensorReadings
          (currentReading
             (readAllSensors
                {| millis_read := 0; millis_decide := 0; millis_sent := 0;
                   analogRead := SampleHw.adc 2300;
                   mpu_acceleration := mpu_acceleration (SampleHw.hardware 0);
                   mpu_gyro := mpu_gyro (SampleHw.hardware 0);
                   bme_readTemperature := S754_nan;
                   bme_readHumidity := F32.lit 640 1;
                   LoRaWAN_getRSSI := -70 |} Sample.critical))) 4 = false.
Proof.
  split.
  - rewrite (proj1 (proj2 (X3_quality_mask
                             (Sample.reading 80 (F32.lit 35 1))))).
    reflexivity.
  - apply (proj1 (proj2 (proj2 (proj2 (proj2 (proj2 (proj2 (proj2 (proj2
             (proj2 (proj2 (proj2 (X3_quality_mask _))))))))))))).
    left. reflexivity.
Defined.

(** ** Readings of the converter *)

Lemma adc_values_spec (a : Z) : 0 <= a < 4096 -> In a adc_values.
Proof.
  intros Ha. unfold adc_values. rewrite <- (Z2Nat.id a) by lia.
  apply in_map, in_seq. lia.
Qed.

(** A test that passes on the 4096 values passes on every reading. *)
Lemma forallb_adc (P : Z -> bool) :
  forallb P adc_values = true -> forall a, 0 <= a < 4096 -> P a = true.
Proof.
  intros H a Ha. rewrite forallb_forall in H. apply H, adc_values_spec, Ha.
Qed.

(** The facts below are checked on each of the 4096 readings, one pass
    for each conversion. *)
Lemma tilt_of_adc_facts (a : Z) :
  0 <= a < 4096 ->
  (let t := tilt_of_adc a in
   let m := SFtrunc (F32.mul t (F32.of_Z 1000)) in
   F64.leb (F64.of_float (abs t)) (F64.lit 10 1)
   && ((-1000 <=? m) && (m <=? 1000))) = true.
Proof.
  revert a.
  apply (forallb_adc
           (fun a =>
              let t := tilt_of_adc a in
              let m := SFtrunc (F32.mul t (F32.of_Z 1000)) in
              F64.leb (F64.of_float (abs t)) (F64.lit 10 1)
              && ((-1000 <=? m) && (m <=? 1000)))).
  vm_cast_no_check (eq_refl true).
Qed.

Lemma pore_pressure_of_adc_facts (a : Z) :
  0 <= a < 4096 ->
  (let p := pore_pressure_of_adc a in
   let m := SFtrunc p in
   Bool.eqb (SFleb (F32.of_Z 0) p && SFleb p (F32.of_Z 1000)) (621 <=? a)
   && ((-125 <=? m) && (m <=? 700))) = true.
Proof.
  revert a.
  apply (forallb_adc
           (fun a =>
              let p := pore_pressure_of_adc a in
              let m := SFtrunc p in
              Bool.eqb (SFleb (F32.of_Z 0) p && SFleb p (F32.of_Z 1000))
                (621 <=? a)
              && ((-125 <=? m) && (m <=? 700)))).
  vm_cast_no_check (eq_refl true).
Qed.

Lemma strain_of_adc_facts (a : Z) :
  0 <= a < 4096 ->
  (let x := strain_of_adc a in
   let m := SFtrunc x in
   Bool.eqb (SFleb (abs x) (F32.of_Z 1000)) ((807 <=? a) && (a <=? 3288))
   && ((-1650 <=? m) && (m <=? 1650))) = true.
Proof.
  revert a.
  apply (forallb_adc
           (fun a =>
              let x := strain_of_adc a in
              let m := SFtrunc x in
              Bool.eqb (SFleb (abs x) (F32.of_Z 1000))
                ((807 <=? a) && (a <=? 3288))
              && ((-1650 <=? m) && (m <=? 1650)))).
  vm_cast_no_check (eq_refl true).
Qed.

Lemma battery_of_adc_facts (a : Z) :
  0 <= a < 4096 ->
  (let v := battery_voltage_of_adc a in
   (calculateBatteryLevel v =? battery_level_of_counts a)
   && Bool.eqb (F64.ltb (F64.of_float v) CRITICAL_BATTERY_THRESHOLD)
        (a <? 1862)) = true.
Proof.
  revert a.
  apply (forallb_adc
           (fun a =>
              let v := battery_voltage_of_adc a in
              (calculateBatteryLevel v =? battery_level_of_counts a)
              && Bool.eqb
                   (F64.ltb (F64.of_float v) CRITICAL_BATTERY_THRESHOLD)
                   (a <? 1862))).
  vm_cast_no_check (eq_refl true).
Qed.

Lemma tilt_of_adc_ok (a : Z) :
  0 <= a < 4096 ->
  F64.leb (F64.of_float (abs (tilt_of_adc a))) (F64.lit 10 1) = true.
Proof.
  intros Ha. pose proof (tilt_of_adc_facts a Ha) as H. cbv zeta in H.
  exact (proj1 (andb_prop _ _ H)).
Qed.

Lemma pore_pressure_of_adc_ok (a : Z) :
  0 <= a < 4096 ->
  SFleb (F32.of_Z 0) (pore_pressure_of_adc a)
  && SFleb (pore_pressure_of_adc a) (F32.of_Z 1000)
  = (621 <=? a).
Proof.
  intros Ha. pose proof (pore_pressure_of_adc_facts a Ha) as H.
  cbv zeta in H. exact (eqb_prop _ _ (proj1 (andb_prop _ _ H))).
Qed.

Lemma strain_of_adc_ok (a : Z) :
  0 <= a < 4096 ->
  SFleb (abs (strain_of_adc a)) (F32.of_Z 1000)
  = (807 <=? a) && (a <=? 3288).
Proof.
  intros Ha. pose proof (strain_of_adc_facts a Ha) as H.
  cbv zeta in H. exact (eqb_prop _ _ (proj1 (andb_prop _ _ H))).
Qed.

Lemma battery_level_of_adc (a : Z) :
  0 <= a < 4096 ->
  calculateBatteryLevel (battery_voltage_of_adc a) = battery_level_of_counts a.
Proof.
  intros Ha. pose proof (battery_of_adc_facts a Ha) as H.
  cbv zeta in H. exact (proj1 (Z.eqb_eq _ _) (proj1 (andb_prop _ _ H))).
Qed.

Lemma battery_critical_of_adc (a : Z) :
  0 <= a < 4096 ->
  F64.ltb (F64.of_float (battery_voltage_of_adc a)) CRITICAL_BATTERY_THRESHOLD
  = (a <? 1862).
Proof.
  intros Ha. pose proof (battery_of_adc_facts a Ha) as H.
  cbv zeta in H. exact (eqb_prop _ _ (proj2 (andb_prop _ _ H))).
Qed.

(** X4.  After [readAllSensors] on a 12-bit converter: the tilt bit of the
    quality mask is always set; the pore-pressure bit is set exactly from 621
    counts on the piezometer input; the strain bit exactly between 807 and
    3288 counts on the strain-gauge input; and the battery level is 0 below
    1862 counts on the battery input, 10 below 1924, 20 below 1986, 40 below
    2048, 60 below 2172, 80 below 2296 and 100 from there. *)
Theorem X4_readings_by_counts (hw : Hardware) (g : Globals) :
  (forall pin, 0 <= analogRead hw pin < 4096) ->
  let r := currentReading (readAllSensors hw g) in
  Z.testbit (quality_flags r) 0 = true
  /\ Z.testbit (quality_flags r) 3 = (621 <=? analogRead hw PIEZOMETER_PIN)
  /\ Z.testbit (quality_flags r) 5
     = (807 <=? analogRead hw STRAIN_GAUGE_PIN)
       && (analogRead hw STRAIN_GAUGE_PIN <=? 3288)
  /\ battery_level r = battery_level_of_counts (analogRead hw BATTERY_PIN).
Proof.
  intros Hadc. cbv zeta. unfold readAllSensors. cbv zeta.
  cbn [currentReading emit set_currentReading quality_flags battery_level].
  match goal with
  | |- context [validateSensorReadings ?r] =>
      destruct (validateSensorReadings_bits r)
        as (_ & H0 & _ & _ & H3 & _ & H5)
  end.
  rewrite H0, H3, H5.
  cbn [tilt_x tilt_y pore_pressure strain_gauge].
  rewrite !tilt_of_adc_ok, pore_pressure_of_adc_ok, strain_of_adc_ok,
    battery_level_of_adc by apply Hadc.
  repeat split.
Qed.

Lemma X4_readings_by_counts_witness :
  let r := currentReading (readAllSensors (SampleHw.hardware 2300)
                             Sample.critical) in
  Z.testbit (quality_flags r) 0 = true
  /\ Z.testbit (quality_flags r) 3 = (621 <=? 1812)
  /\ Z.testbit (quality_flags r) 5 = (807 <=? 2040) && (2040 <=? 3288)
  /\ battery_level r = battery_level_of_counts 2300.
Proof.
  apply (X4_readings_by_counts (SampleHw.hardware 2300) Sample.critical).
  intros pin. destruct pin; cbn; lia.
Defined.

Lemma tilt_measurement_of_adc (a : Z) :
  0 <= a < 4096 ->
  -1000 <= SFtrunc (F32.mul (tilt_of_adc a) (F32.of_Z 1000)) <= 1000.
Proof.
  intros Ha. pose proof (tilt_of_adc_facts a Ha) as H. cbv zeta in H.
  apply andb_prop in H. destruct H as [_ H]. lia.
Qed.

Lemma pore_pressure_measurement_of_adc (a : Z) :
  0 <= a < 4096 -> -125 <= SFtrunc (pore_pressure_of_adc a) <= 700.
Proof.
  intros Ha. pose proof (pore_pressure_of_adc_facts a Ha) as H.
  cbv zeta in H. apply andb_prop in H. destruct H as [_ H]. lia.
Qed.

Lemma strain_measurement_of_adc (a : Z) :
  0 <= a < 4096 -> -1650 <= SFtrunc (strain_of_adc a) <= 1650.
Proof.
  intros Ha. pose proof (strain_of_adc_facts a Ha) as H.
  cbv zeta in H. apply andb_prop in H. destruct H as [_ H]. lia.
Qed.

(** The cast to [int16_t] keeps a value that is in range. *)
Lemma s16_in_range (z : Z) : - 2 ^ 15 <= z < 2 ^ 15 -> Int.s16 z = z.
Proof. intros Hz. unfold Int.s16. rewrite Z.mod_small; lia. Qed.

(** X5.  On a 12-bit converter the casts of [prepareTxFrame] never wrap on
    the channels read from it: the scaled tilts are the truncated products,
    within 1000 of zero; the pore pressure is the truncated value, between
    -125 and 700; the strain is the truncated value, within 1650 of zero. *)
Theorem X5_analog_measurements_fit (hw : Hardware) (g : Globals) :
  (forall pin, 0 <= analogRead hw pin < 4096) ->
  let r := currentReading (readAllSensors hw g) in
  let m := measurements r in
  (nth 0 m 0 = SFtrunc (F32.mul (tilt_x r) (F32.of_Z 1000))
   /\ -1000 <= nth 0 m 0 <= 1000)
  /\ (nth 1 m 0 = SFtrunc (F32.mul (tilt_y r) (F32.of_Z 1000))
      /\ -1000 <= nth 1 m 0 <= 1000)
  /\ (nth 9 m 0 = SFtrunc (pore_pressure r) /\ -125 <= nth 9 m 0 <= 700)
  /\ (nth 12 m 0 = SFtrunc (strain_gauge r) /\ -1650 <= nth 12 m 0 <= 1650).
Proof.
  intros Hadc. cbv zeta. unfold readAllSensors. cbv zeta.
  cbn [currentReading emit set_currentReading measurements nth
         tilt_x tilt_y pore_pressure strain_gauge].
  unfold F32.to_s16.
  pose proof (tilt_measurement_of_adc _ (Hadc TILT_X_PIN)) as Hx.
  pose proof (tilt_measurement_of_adc _ (Hadc TILT_Y_PIN)) as Hy.
  pose proof (pore_pressure_measurement_of_adc _ (Hadc PIEZOMETER_PIN)) as Hp.
  pose proof (strain_measurement_of_adc _ (Hadc STRAIN_GAUGE_PIN)) as Hs.
  rewrite !s16_in_range by lia. auto.
Qed.

Lemma X5_analog_measurements_fit_witness :
  let r := currentReading (readAllSensors (SampleHw.hardware 2300)
                             Sample.critical) in
  let m := measurements r in
  (nth 0 m 0 = SFtrunc (F32.mul (tilt_x r) (F32.of_Z 1000))
   /\ -1000 <= nth 0 m 0 <= 1000)
  /\ (nth 1 m 0 = SFtrunc (F32.mul (tilt_y r) (F32.of_Z 1000))
      /\ -1000 <= nth 1 m 0 <= 1000)
  /\ (nth 9 m 0 = SFtrunc (pore_pressure r) /\ -125 <= nth 9 m 0 <= 700)
  /\ (nth 12 m 0 = SFtrunc (strain_gauge r) /\ -1650 <= nth 12 m 0 <= 1650).
Proof.
  apply (X5_analog_measurements_fit (SampleHw.hardware 2300) Sample.critical).
  intros pin. destruct pin; cbn; lia.
Defined.

(** ** The sensor cycle *)

(** What [processLocalDecisions] leaves alone. *)
Lemma processLocalDecisions_frame (g : Globals) :
  let g' := globals_of (processLocalDecisions g) in
  currentReading g' = currentReading g
  /\ aiResult g' = aiResult g
  /\ lastTransmission g' = lastTransmission g
  /\ appData g' = appData g
  /\ appDataSize g' = appDataSize g
  /\ failedTransmissions g' = failedTransmissions g.
Proof.
  unfold processLocalDecisions, adjustForBattery, adjustInterval,
    emergencyTransition.
  cbv zeta. case_ifs; repeat split.
Qed.

Lemma processLocalDecisions_is_deep_sleep (g : Globals) :
  is_deep_sleep (processLocalDecisions g)
  = F64.ltb (F64.of_float (battery_voltage (currentReading g)))
      CRITICAL_BATTERY_THRESHOLD.
Proof.
  unfold processLocalDecisions. cbv zeta.
  replace (currentReading (adjustForBattery (adjustInterval (emergencyTransition g))))
    with (currentReading g).
  - destruct (F64.ltb _ _); reflexivity.
  - rewrite <- (emergencyTransition_reading g), <- adjustInterval_reading.
    unfold adjustForBattery. case_ifs; reflexivity.
Qed.

Lemma processLocalDecisions_deep_sleep_effects (g g' : Globals) :
  processLocalDecisions g = DeepSleep g' -> In EspDeepSleepStart (effects g').
Proof.
  unfold processLocalDecisions. cbv zeta.
  destruct (F64.ltb _ _); [| discriminate].
  intros [= <-]. unfold enterDeepSleep. cbv zeta. rewrite emit_effects.
  apply in_or_app. right. now left.
Qed.

(** The frame [prepareTxFrame] hands over is the layout of the state it
    encodes. *)
Lemma prepareTxFrame_uplinkFrame
  (float_bytes : float -> list Z) (payload : list Z) (g : Globals) :
  (forall x, length (float_bytes x) = 4%nat) ->
  length payload = 64%nat ->
  (51 <= length (appData g))%nat ->
  appDataSize (prepareTxFrame float_bytes payload g) = 51
  /\ uplinkFrame (prepareTxFrame float_bytes payload g)
     = uplink_layout float_bytes g.
Proof.
  intros Hfb Hpay Happ.
  unfold uplinkFrame, prepareTxFrame. cbv zeta.
  cbn [appDataSize appData emit set_appData].
  match goal with |- context [snd ?c] => set (cur := c) end.
  assert (Hw : exists bs, written bs cur /\ bs = uplink_layout float_bytes g).
  { eexists. split.
    - subst cur. cbn [fold_left seq nth measurements]. frame_chain Hfb.
    - unfold uplink_layout, measurements. cbv zeta. cbn [map concat].
      rewrite be_bytes_4, !be_bytes_2, <- !app_assoc. reflexivity. }
  destruct Hw as (bs & (Hidx & _ & Htake) & ->).
  rewrite (length_uplink_layout _ _ Hfb) in Hidx, Htake.
  rewrite Hidx. split; [reflexivity |].
  change (Z.to_nat (Z.of_nat 51)) with 51%nat. rewrite Htake.
  rewrite <- (take_drop 51 (appData g)).
  rewrite list_inserts_0_r
    by (rewrite length_take, (length_uplink_layout _ _ Hfb); lia).
  apply take_app_length'. symmetry. now apply length_uplink_layout.
Qed.

Lemma performSensorCycle_cases (exp : double -> double)
  (float_bytes : float -> list Z) (payload : list Z) (hw : Hardware)
  (g : Globals) :
  let g2 := runEdgeAI exp (readAllSensors hw g) in
  let g3 := globals_of (processLocalDecisions g2) in
  performSensorCycle exp float_bytes payload hw g
  = if is_deep_sleep (processLocalDecisions g2) then CycleDeepSleep g3
    else if shouldTransmitData (millis_decide hw) g3
         then CycleSent (set_lastTransmission (millis_sent hw)
                           (prepareTxFrame float_bytes payload g3))
         else CycleQuiet g3.
Proof.
  unfold performSensorCycle. cbv zeta.
  destruct (processLocalDecisions _); reflexivity.
Qed.

Lemma shouldTransmitData_orb (millis : Z) (g : Globals) :
  shouldTransmitData millis g
  = emergencyMode g
    || (transmissionInterval g <=? Int.u32 (millis - lastTransmission g))
    || (2 <=? risk_level (aiResult g)).
Proof. unfold shouldTransmitData. cbv zeta. case_ifs; reflexivity. Qed.

(** X6.  On a 12-bit converter a sensor cycle ends in deep sleep exactly
    when the battery input reads below 1862 counts, whatever the risk level
    and the emergency flag; it then has asked for the deep sleep and has
    neither prepared a frame nor moved the time of the last transmission. *)
Theorem X6_cycle_deep_sleep (exp : double -> double)
  (float_bytes : float -> list Z) (payload : list Z) (hw : Hardware)
  (g : Globals) :
  (forall pin, 0 <= analogRead hw pin < 4096) ->
  let o := performSensorCycle exp float_bytes payload hw g in
  deep_sleeps o = (analogRead hw BATTERY_PIN <? 1862)
  /\ (deep_sleeps o = true ->
      In EspDeepSleepStart (effects (cycle_globals o))
      /\ lastTransmission (cycle_globals o) = lastTransmission g
      /\ appData (cycle_globals o) = appData g
      /\ appDataSize (cycle_globals o) = appDataSize g).
Proof.
  intros Hadc. cbv zeta. rewrite performSensorCycle_cases. cbv zeta.
  set (g2 := runEdgeAI exp (readAllSensors hw g)).
  rewrite processLocalDecisions_is_deep_sleep.
  change (battery_voltage (currentReading g2))
    with (battery_voltage_of_adc (analogRead hw BATTERY_PIN)).
  rewrite battery_critical_of_adc by apply Hadc.
  pose proof (processLocalDecisions_is_deep_sleep g2) as Hsleep.
  change (battery_voltage (currentReading g2))
    with (battery_voltage_of_adc (analogRead hw BATTERY_PIN)) in Hsleep.
  rewrite battery_critical_of_adc in Hsleep by apply Hadc.
  destruct (processLocalDecisions_frame g2) as (_ & _ & Hlast & Hdata & Hsize & _).
  destruct (analogRead hw BATTERY_PIN <? 1862).
  - split; [reflexivity |]. intros _. cbn [cycle_globals].
    rewrite Hlast, Hdata, Hsize.
    split; [| repeat split].
    destruct (processLocalDecisions g2) as [g3 | g3] eqn:Hp;
      [discriminate |].
    exact (processLocalDecisions_deep_sleep_effects _ _ Hp).
  - split; [| intros H; exfalso; revert H];
      destruct (shouldTransmitData _ _); cbn [deep_sleeps];
      try reflexivity; discriminate.
Qed.

Lemma X6_cycle_deep_sleep_witness :
  let o := performSensorCycle (fun _ => F64.of_Z 0) esp32_float_bytes
             (repeat 170 64) (SampleHw.hardware 1800) Sample.critical in
  deep_sleeps o = (1800 <? 1862)
  /\ (deep_sleeps o = true ->
      In EspDeepSleepStart (effects (cycle_globals o))
      /\ lastTransmission (cycle_globals o) = lastTransmission Sample.critical
      /\ appData (cycle_globals o) = appData Sample.critical
      /\ appDataSize (cycle_globals o) = appDataSize Sample.critical).
Proof.
  apply (X6_cycle_deep_sleep (fun _ => F64.of_Z 0) esp32_float_bytes
           (repeat 170 64) (SampleHw.hardware 1800) Sample.critical).
  intros pin. destruct pin; cbn; lia.
Defined.

(** What the acquisition, the inference and the encoder leave alone. *)
Lemma readAllSensors_frame (hw : Hardware) (g : Globals) :
  lastTransmission (readAllSensors hw g) = lastTransmission g
  /\ appData (readAllSensors hw g) = appData g
  /\ appDataSize (readAllSensors hw g) = appDataSize g
  /\ emergencyMode (readAllSensors hw g) = emergencyMode g
  /\ transmissionInterval (readAllSensors hw g) = transmissionInterval g
  /\ failedTransmissions (readAllSensors hw g) = failedTransmissions g.
Proof. repeat split. Qed.

Lemma runEdgeAI_frame (exp : double -> double) (g : Globals) :
  currentReading (runEdgeAI exp g) = currentReading g
  /\ lastTransmission (runEdgeAI exp g) = lastTransmission g
  /\ appData (runEdgeAI exp g) = appData g
  /\ appDataSize (runEdgeAI exp g) = appDataSize g
  /\ emergencyMode (runEdgeAI exp g) = emergencyMode g
  /\ transmissionInterval (runEdgeAI exp g) = transmissionInterval g
  /\ failedTransmissions (runEdgeAI exp g) = failedTransmissions g.
Proof. repeat split. Qed.

Lemma prepareTxFrame_frame (float_bytes : float -> list Z) (payload : list Z)
  (g : Globals) :
  currentReading (prepareTxFrame float_bytes payload g) = currentReading g
  /\ aiResult (prepareTxFrame float_bytes payload g) = aiResult g
  /\ emergencyMode (prepareTxFrame float_bytes payload g) = emergencyMode g
  /\ transmissionInterval (prepareTxFrame float_bytes payload g)
     = transmissionInterval g
  /\ lastTransmission (prepareTxFrame float_bytes payload g)
     = lastTransmission g.
Proof. repeat split. Qed.

(** The layout reads the reading, the inference result and the emergency
    flag only. *)
Lemma uplink_layout_ext (float_bytes : float -> list Z) (g1 g2 : Globals) :
  currentReading g1 = currentReading g2 ->
  aiResult g1 = aiResult g2 ->
  emergencyMode g1 = emergencyMode g2 ->
  uplink_layout float_bytes g1 = uplink_layout float_bytes g2.
Proof. intros Hr Ha He. unfold uplink_layout. now rewrite Hr, Ha, He. Qed.

(** The end of a cycle, from the state the policy leaves. *)
Lemma cycle_end (float_bytes : float -> list Z) (payload : list Z)
  (t_decide t_sent last : Z) (data : list Z) (size : Z)
  (asleep : bool) (g3 : Globals) :
  (forall x, length (float_bytes x) = 4%nat) ->
  length payload = 64%nat ->
  (51 <= length data)%nat ->
  lastTransmission g3 = last -> appData g3 = data -> appDataSize g3 = size ->
  let o :=
    if asleep then CycleDeepSleep g3
    else if shouldTransmitData t_decide g3
         then CycleSent (set_lastTransmission t_sent
                           (prepareTxFrame float_bytes payload g3))
         else CycleQuiet g3 in
  let g' := cycle_globals o in
  (deep_sleeps o = false ->
   sends o
   = emergencyMode g'
     || (transmissionInterval g' <=? Int.u32 (t_decide - last))
     || (2 <=? risk_level (aiResult g')))
  /\ (sends o = true ->
      lastTransmission g' = t_sent
      /\ appDataSize g' = 51
      /\ uplinkFrame g' = uplink_layout float_bytes g')
  /\ (sends o = false ->
      lastTransmission g' = last /\ appData g' = data
      /\ appDataSize g' = size).
Proof.
  intros Hfb Hpay Happ Hlast Hdata Hsize. cbv zeta.
  assert (Happ3 : (51 <= length (appData g3))%nat) by now rewrite Hdata.
  destruct (prepareTxFrame_uplinkFrame float_bytes payload g3 Hfb Hpay Happ3)
    as [Hsz Hframe].
  destruct (prepareTxFrame_frame float_bytes payload g3)
    as (Hr & Ha & He & Hi & _).
  revert Hsz Hframe Hr Ha He Hi.
  generalize (prepareTxFrame float_bytes payload g3). intros g4.
  intros Hsz Hframe Hr Ha He Hi.
  pose proof (shouldTransmitData_orb t_decide g3) as Hdecide.
  rewrite Hlast in Hdecide.
  destruct asleep.
  - cbn [deep_sleeps sends cycle_globals]. split; [discriminate |].
    split; [discriminate |]. intros _. auto.
  - destruct (shouldTransmitData t_decide g3);
      cbn [deep_sleeps sends cycle_globals].
    + split.
      { intros _. cbn [set_lastTransmission emergencyMode transmissionInterval
                         aiResult].
        now rewrite He, Hi, Ha. }
      split; [| discriminate]. intros _.
      split; [reflexivity |]. split; [exact Hsz |].
      unfold uplinkFrame in *.
      cbn [set_lastTransmission appData appDataSize]. rewrite Hframe.
      apply uplink_layout_ext; cbn [set_lastTransmission currentReading
        aiResult emergencyMode]; congruence.
    + split; [intros _; exact Hdecide |]. split; [discriminate |].
      intros _. auto.
Qed.

(** X7.  A sensor cycle that does not end in deep sleep sends exactly when
    emergency mode is on at its end, or the clock is at least the interval
    past the last transmission, or the risk level is 2 or more.  When it
    sends, the time of the last transmission is the clock after the send and
    the frame handed over is the 51-byte layout of the state the cycle ends
    in; when it does not, the time of the last transmission and the radio
    buffer are as before the cycle. *)
Theorem X7_cycle_transmission (exp : double -> double)
  (float_bytes : float -> list Z) (payload : list Z) (hw : Hardware)
  (g : Globals) :
  (forall x, length (float_bytes x) = 4%nat) ->
  length payload = 64%nat ->
  (51 <= length (appData g))%nat ->
  let o := performSensorCycle exp float_bytes payload hw g in
  let g' := cycle_globals o in
  (deep_sleeps o = false ->
   sends o
   = emergencyMode g'
     || (transmissionInterval g'
         <=? Int.u32 (millis_decide hw - lastTransmission g))
     || (2 <=? risk_level (aiResult g')))
  /\ (sends o = true ->
      lastTransmission g' = millis_sent hw
      /\ appDataSize g' = 51
      /\ uplinkFrame g' = uplink_layout float_bytes g')
  /\ (sends o = false ->
      lastTransmission g' = lastTransmission g
      /\ appData g' = appData g
      /\ appDataSize g' = appDataSize g).
Proof.
  intros Hfb Hpay Happ. cbv zeta. rewrite performSensorCycle_cases.
  destruct (processLocalDecisions_frame (runEdgeAI exp (readAllSensors hw g)))
    as (_ & _ & Hlast & Hdata & Hsize & _).
  destruct (runEdgeAI_frame exp (readAllSensors hw g))
    as (_ & Hl2 & Hd2 & Hs2 & _).
  destruct (readAllSensors_frame hw g) as (Hl1 & Hd1 & Hs1 & _).
  apply cycle_end; try assumption; congruence.
Qed.

Lemma X7_cycle_transmission_witness :
  let o := performSensorCycle (fun _ => F64.of_Z 0) esp32_float_bytes
             (repeat 170 64) (SampleHw.hardware 2300) Sample.critical in
  sends o = true
  /\ lastTransmission (cycle_globals o) = 1200950
  /\ appDataSize (cycle_globals o) = 51.
Proof.
  pose proof (X7_cycle_transmission (fun _ => F64.of_Z 0) esp32_float_bytes
                (repeat 170 64) (SampleHw.hardware 2300) Sample.critical
                (fun x => eq_refl) eq_refl) as H.
  cbv zeta in H.
  assert (Happ : (51 <= length (appData Sample.critical))%nat)
    by (cbn; lia).
  destruct (H Happ) as (_ & Hsent & _).
  assert (Hs : sends (performSensorCycle (fun _ => F64.of_Z 0)
                        esp32_float_bytes (repeat 170 64)
                        (SampleHw.hardware 2300) Sample.critical) = true)
    by reflexivity.
  destruct (Hsent Hs) as (Hlast & Hsize & _).
  cbv zeta. auto.
Defined.

(** ** Downlinks and the cycle *)

Lemma adjustInterval_set_interval (v : Z) (g : Globals) :
  adjustInterval (set_transmissionInterval v g) = adjustInterval g.
Proof.
  unfold adjustInterval. cbv zeta. cbn [set_transmissionInterval aiResult].
  case_ifs; reflexivity.
Qed.

(** The transition step reads the interval nowhere. *)
Lemma emergencyTransition_set_interval (v : Z) (g : Globals) :
  set_transmissionInterval 0 (emergencyTransition (set_transmissionInterval v g))
  = set_transmissionInterval 0 (emergencyTransition g).
Proof.
  unfold emergencyTransition. cbv zeta.
  cbn [set_transmissionInterval aiResult emergencyMode].
  destruct (_ && _); [destruct (negb (emergencyMode g)) |
                      destruct (_ && _)]; reflexivity.
Qed.

Lemma processLocalDecisions_set_interval (v : Z) (g : Globals) :
  processLocalDecisions (set_transmissionInterval v g)
  = processLocalDecisions g.
Proof.
  unfold processLocalDecisions. cbv zeta.
  rewrite <- (adjustInterval_set_interval 0
                (emergencyTransition (set_transmissionInterval v g))),
    emergencyTransition_set_interval, adjustInterval_set_interval.
  reflexivity.
Qed.

Lemma performSensorCycle_set_interval (exp : double -> double)
  (float_bytes : float -> list Z) (payload : list Z) (hw : Hardware)
  (v : Z) (g : Globals) :
  performSensorCycle exp float_bytes payload hw (set_transmissionInterval v g)
  = performSensorCycle exp float_bytes payload hw g.
Proof.
  unfold performSensorCycle. cbv zeta.
  change (runEdgeAI exp (readAllSensors hw (set_transmissionInterval v g)))
    with (set_transmissionInterval v (runEdgeAI exp (readAllSensors hw g))).
  now rewrite processLocalDecisions_set_interval.
Qed.

(** X8.  A sensor cycle never reads the interval it starts with: it gives
    the same result from any starting interval.  So a downlink command 0x01
    received before a cycle changes that cycle by its line in the log and
    nothing else. *)
Theorem X8_interval_never_read (exp : double -> double)
  (float_bytes : float -> list Z) (payload : list Z) (hw : Hardware)
  (g : Globals) :
  (forall v : Z,
      performSensorCycle exp float_bytes payload hw
        (set_transmissionInterval v g)
      = performSensorCycle exp float_bytes payload hw g)
  /\ (forall (v : Z) (rest : list Z),
         performSensorCycle exp float_bytes payload hw
           (downlink (1 :: v :: rest) g)
         = performSensorCycle exp float_bytes payload hw
             (emit (SerialPrintf
                      "Transmission interval updated to %d minutes\n"
                      [IntArg v]) g)).
Proof.
  split; [intros v; apply performSensorCycle_set_interval |].
  intros v rest. unfold downlink, handleDownlinkCommand.
  destruct (Z.ltb_spec (Z.of_nat (length (1 :: v :: rest))) 2) as [Hlt | _];
    [cbn [length] in Hlt; lia |].
  cbn [byte_at nth].
  exact (performSensorCycle_set_interval exp float_bytes payload hw
           (Int.u32 (v * 60 * 1000))
           (emit (SerialPrintf "Transmission interval updated to %d minutes\n"
                    [IntArg v]) g)).
Qed.

(** X9.  After a downlink command 0x02 the time of the last transmission is
    0, so the transmission decision at clock [millis] is: emergency mode, or
    the clock itself has reached the interval, or the risk level is 2 or
    more.  Below the interval on the clock, the command forces nothing. *)
Theorem X9_forced_transmission (v millis : Z) (rest : list Z) (g : Globals) :
  0 <= millis < 2 ^ 32 ->
  lastTransmission (downlink (2 :: v :: rest) g) = 0
  /\ shouldTransmitData millis (downlink (2 :: v :: rest) g)
     = emergencyMode g
       || (transmissionInterval g <=? millis)
       || (2 <=? risk_level (aiResult g)).
Proof.
  intros Hm. unfold downlink, handleDownlinkCommand.
  destruct (Z.ltb_spec (Z.of_nat (length (2 :: v :: rest))) 2) as [Hlt | _];
    [cbn [length] in Hlt; lia |].
  cbn [byte_at nth]. split; [reflexivity |].
  rewrite shouldTransmitData_orb.
  cbn [emit set_lastTransmission emergencyMode transmissionInterval
         lastTransmission aiResult].
  unfold Int.u32. now rewrite Z.sub_0_r, Z.mod_small.
Qed.

Lemma X9_forced_transmission_witness :
  lastTransmission (downlink [2; 0] Sample.calm_low_battery) = 0
  /\ shouldTransmitData 600000 (downlink [2; 0] Sample.calm_low_battery)
     = emergencyMode Sample.calm_low_battery
       || (transmissionInterval Sample.calm_low_battery <=? 600000)
       || (2 <=? risk_level (aiResult Sample.calm_low_battery)).
Proof.
  apply (X9_forced_transmission 0 600000 [] Sample.calm_low_battery). lia.
Defined.

(** X10.  No downlink changes the emergency flag, the failure counter, the
    join flag, the reading, the inference result or the radio buffer.  A
    downlink of fewer than 2 bytes changes nothing but the log, which gets
    the one line on its reception. *)
Theorem X10_downlink_frame (m : McpsIndication) (g : Globals) :
  let g' := downLinkDataHandle m g in
  (emergencyMode g' = emergencyMode g
   /\ failedTransmissions g' = failedTransmissions g
   /\ deviceJoined g' = deviceJoined g
   /\ currentReading g' = currentReading g
   /\ aiResult g' = aiResult g
   /\ appData g' = appData g
   /\ appDataSize g' = appDataSize g)
  /\ (BufferSize m < 2 ->
      transmissionInterval g' = transmissionInterval g
      /\ lastTransmission g' = lastTransmission g
      /\ effects g'
         = effects g
           ++ [SerialPrintf
                 "Received downlink: rssi = %d, snr = %d, datarate = %d, length = %d\n"
                 [IntArg (Rssi m); IntArg (Snr m); IntArg (RxDatarate m);
                  IntArg (BufferSize m)]]).
Proof.
  cbv zeta. unfold downLinkDataHandle, handleDownlinkCommand. cbv zeta. split.
  - destruct (0 <? BufferSize m); [| repeat split].
    destruct (BufferSize m <? 2); [repeat split |].
    destruct (byte_at (Buffer m) 0) as [| p | p];
      [repeat split | | repeat split].
    destruct p as [[q | q |] | [[q | q |] | [q | q |] |] |]; repeat split.
  - intros Hsize.
    destruct (Z.ltb_spec (BufferSize m) 2); [| lia].
    destruct (0 <? BufferSize m); repeat split.
Qed.

Lemma X10_downlink_frame_witness :
  transmissionInterval
    (downLinkDataHandle
       {| Rssi := -80; Snr := 7; RxDatarate := 5; BufferSize := 1;
          Buffer := [1] |} Sample.critical)
  = transmissionInterval Sample.critical.
Proof.
  refine (proj1 (proj2 (X10_downlink_frame
                          {| Rssi := -80; Snr := 7; RxDatarate := 5;
                             BufferSize := 1; Buffer := [1] |}
                          Sample.critical) _)).
  cbn. lia.
Defined.

(** ** Rounding keeps the sign *)

Lemma shr_1_nonneg (mrs : shr_record) :
  0 <= shr_m mrs -> 0 <= shr_m (shr_1 mrs).
Proof.
  destruct mrs as [m r s]. cbn [shr_m].
  destruct m as [| p | p]; [| destruct p | lia]; cbn; lia.
Qed.

Lemma iter_pos_nonneg (p : positive) (mrs : shr_record) :
  0 <= shr_m mrs -> 0 <= shr_m (SpecFloat.iter_pos shr_1 p mrs).
Proof.
  revert mrs. induction p as [p IH | p IH |]; intros mrs H; cbn [SpecFloat.iter_pos].
  - apply IH, IH, shr_1_nonneg, H.
  - apply IH, IH, H.
  - apply shr_1_nonneg, H.
Qed.

Lemma shr_fexp_nonneg (prec emax m e : Z) (l : location) :
  0 <= m -> 0 <= shr_m (fst (shr_fexp prec emax m e l)).
Proof.
  intros Hm. unfold shr_fexp, shr.
  assert (H0 : 0 <= shr_m (shr_record_of_loc m l))
    by (destruct l as [| []]; exact Hm).
  destruct (fexp prec emax (Zdigits2 m + e) - e) as [| p | p]; cbn [fst];
    [exact H0 | apply iter_pos_nonneg, H0 | exact H0].
Qed.

Lemma round_nearest_even_nonneg (m : Z) (l : location) :
  0 <= m -> 0 <= round_nearest_even m l.
Proof.
  intros Hm. destruct l as [| []]; cbn [round_nearest_even];
    try destruct (Z.even m); lia.
Qed.

Lemma binary_round_aux_sign (prec emax : Z) (sx : bool) (mx ex : Z)
  (lx : location) :
  0 <= mx -> has_sign sx (binary_round_aux prec emax sx mx ex lx).
Proof.
  intros Hm. unfold binary_round_aux.
  pose proof (shr_fexp_nonneg prec emax mx ex lx Hm) as H1.
  destruct (shr_fexp prec emax mx ex lx) as [mrs' e']. cbn [fst] in H1.
  pose proof (shr_fexp_nonneg prec emax
                (round_nearest_even (shr_m mrs') (loc_of_shr_record mrs'))
                e' loc_Exact
                (round_nearest_even_nonneg _ _ H1)) as H2.
  destruct (shr_fexp prec emax (round_nearest_even _ _) e' loc_Exact)
    as [mrs'' e'']. cbn [fst] in H2.
  destruct (shr_m mrs'') as [| p | p]; [reflexivity | | lia].
  destruct (e'' <=? emax - prec); reflexivity.
Qed.

Lemma binary_round_sign (prec emax : Z) (s : bool) (m : positive) (e : Z) :
  has_sign s (binary_round prec emax s m e).
Proof.
  unfold binary_round. destruct (shl_align m e _) as [mz ez].
  apply binary_round_aux_sign. lia.
Qed.

(** ** The hidden layer *)

(** The activation of [runEdgeAI]: [fmax(0, x)] stored in a [float]. *)
Lemma relu_sign (x : float) :
  has_sign false
    (F32.of_double (F64.fmax (F64.of_Z 0) (F64.of_float x))).
Proof.
  change (F64.of_Z 0) with (S754_zero false). unfold F64.fmax.
  cbn [SFis_nan]. destruct (F64.of_float x) as [s | s | | s m e];
    cbn [SFis_nan]; try reflexivity.
  - destruct s; reflexivity.
  - destruct s; cbn; [reflexivity |]. apply binary_round_sign.
Qed.

Lemma at_insert_eq (l : list float) (h : nat) (x : float) :
  (h < length l)%nat -> at_ (<[h := x]> l) h = x.
Proof.
  intros H. unfold at_. rewrite nth_lookup, list_lookup_insert_eq by exact H.
  reflexivity.
Qed.

Lemma at_insert_ne (l : list float) (h k : nat) (x : float) :
  h <> k -> at_ (<[h := x]> l) k = at_ l k.
Proof.
  intros H. unfold at_. now rewrite !nth_lookup, list_lookup_insert_ne.
Qed.

(** A loop that stores to [hidden[h]] only keeps the other units and the
    length of the array. *)
Lemma fold_insert_at (X : Type) (f : list float -> X -> float) (h : nat)
  (xs : list X) (l : list float) :
  let l' := fold_left (fun l x => <[h := f l x]> l) xs l in
  length l' = length l /\ forall k, h <> k -> at_ l' k = at_ l k.
Proof.
  cbv zeta. revert l. induction xs as [| x xs IH]; intros l; cbn [fold_left].
  - split; [reflexivity | reflexivity].
  - destruct (IH (<[h := f l x]> l)) as [Hlen Hat].
    rewrite length_insert in Hlen. split; [exact Hlen |].
    intros k Hk. now rewrite Hat, at_insert_ne.
Qed.

(** X11.  Whatever the weights and the features, NaN included, every unit
    of the hidden layer is a value that is not NaN and not below zero. *)
Theorem X11_hidden_units_not_negative (weights : list (list float))
  (features : list float) (h : nat) :
  (h < 8)%nat ->
  SFis_nan (at_ (hiddenLayer weights features) h) = false
  /\ SFltb (at_ (hiddenLayer weights features) h) (S754_zero false) = false.
Proof.
  intros Hh.
  enough (H : has_sign false (at_ (hiddenLayer weights features) h)).
  { destruct (at_ (hiddenLayer weights features) h) as [s | s | | s m e];
      cbn in H; try contradiction; subst; split; reflexivity. }
  unfold hiddenLayer.
  assert (Inv : forall (hs : list nat) (l : list float),
            length l = 8%nat ->
            (forall k, (k < 8)%nat -> has_sign false (at_ l k)) ->
            (forall k, In k hs -> (k < 8)%nat) ->
            forall k, (k < 8)%nat ->
            has_sign false
              (at_ (fold_left
                      (fun hidden h =>
                         let hidden :=
                           fold_left
                             (fun hidden i =>
                                <[h := F32.add (at_ hidden h)
                                         (F32.mul (at_ (nth i weights []) h)
                                            (at_ features i))]> hidden)
                             (seq 0 13) hidden in
                         <[h := F32.of_double
                                  (F64.fmax (F64.of_Z 0)
                                     (F64.of_float (at_ hidden h)))]> hidden)
                      hs l) k)).
  { induction hs as [| j hs IH]; intros l Hlen Hl Hhs k Hk; cbn [fold_left].
    - apply Hl, Hk.
    - destruct (fold_insert_at nat
                  (fun hidden i =>
                     F32.add (at_ hidden j)
                       (F32.mul (at_ (nth i weights []) j) (at_ features i)))
                  j (seq 0 13) l) as [Hlen' Hat'].
      cbv zeta in Hlen', Hat'. cbv zeta.
      set (l' := fold_left _ (seq 0 13) l) in *.
      apply IH; [now rewrite length_insert, Hlen' | | | exact Hk].
      + intros i Hi. destruct (Nat.eq_dec j i) as [<- | Hne].
        * rewrite at_insert_eq by (rewrite Hlen', Hlen; apply Hhs; now left).
          apply relu_sign.
        * rewrite at_insert_ne by exact Hne. rewrite Hat' by exact Hne.
          apply Hl, Hi.
      + intros i Hi. apply Hhs. now right. }
  apply Inv; [reflexivity | | | exact Hh].
  - intros k Hk. do 8 (destruct k as [| k]; [reflexivity |]). lia.
  - intros k Hk. apply in_seq in Hk. lia.
Qed.

Lemma X11_hidden_units_not_negative_witness :
  SFis_nan
    (at_ (hiddenLayer (nn_weights_input_hidden Sample.critical)
            (repeat S754_nan 13)) 3) = false
  /\ SFltb
       (at_ (hiddenLayer (nn_weights_input_hidden Sample.critical)
               (repeat S754_nan 13)) 3) (S754_zero false) = false.
Proof.
  apply (X11_hidden_units_not_negative
           (nn_weights_input_hidden Sample.critical) (repeat S754_nan 13) 3).
  lia.
Defined.

(** ** Inference and the emergency flag *)

(** The extreme levels, from the comparisons of the score. *)
Lemma riskLevel_extremes (score : float) :
  (riskLevel score =? 3) = negb (F64.ltb (F64.of_float score) (F64.lit 8 1))
  /\ (riskLevel score =? 0) = F64.ltb (F64.of_float score) (F64.lit 3 1).
Proof.
  unfold riskLevel, F64.ltb.
  assert (H38 : SFleb (F64.lit 3 1) (F64.lit 8 1) = true) by reflexivity.
  assert (H68 : SFleb (F64.lit 6 1) (F64.lit 8 1) = true) by reflexivity.
  destruct (SFltb (F64.of_float score) (F64.lit 3 1)) eqn:E3.
  - rewrite (SFltb_leb_trans _ _ _ E3 H38). split; reflexivity.
  - destruct (SFltb (F64.of_float score) (F64.lit 6 1)) eqn:E6.
    + rewrite (SFltb_leb_trans _ _ _ E6 H68). split; reflexivity.
    + destruct (SFltb (F64.of_float score) (F64.lit 8 1)); split; reflexivity.
Qed.

(** X12.  After an inference and the policy step that follows it, the
    emergency flag depends on the anomaly score alone besides its own value:
    it is on when the score is not below 0.8 (a NaN score included), off
    when the score is below 0.3, and unchanged in between.  The confidence
    test never holds it back, the confidence being the constant 0.8. *)
Theorem X12_emergency_by_score (exp : double -> double) (g : Globals) :
  let g1 := runEdgeAI exp g in
  let s := F64.of_float (anomaly_score (aiResult g1)) in
  emergencyMode (globals_of (processLocalDecisions g1))
  = if F64.ltb s (F64.lit 8 1)
    then (if F64.ltb s (F64.lit 3 1) then false else emergencyMode g)
    else true.
Proof.
  cbv zeta.
  rewrite processLocalDecisions_emergencyMode,
    emergencyTransition_emergencyMode.
  change (emergencyMode (runEdgeAI exp g)) with (emergencyMode g).
  change (confidence (aiResult (runEdgeAI exp g))) with (F32.lit 8 1).
  rewrite runEdgeAI_risk_level.
  generalize (anomaly_score (aiResult (runEdgeAI exp g))). intros score.
  destruct (riskLevel_extremes score) as [-> ->].
  change (F64.ltb (F64.lit 7 1) (F64.of_float (F32.lit 8 1))) with true.
  rewrite andb_true_r.
  destruct (F64.ltb (F64.of_float score) (F64.lit 8 1)); reflexivity.
Qed.

(** ** Radio callbacks *)

Lemma onSendFailed_counter (n : nat) (g : Globals) :
  0 <= failedTransmissions g < 256 ->
  failedTransmissions (Nat.iter n (fun g => fst (onSendFailed g)) g)
  = (failedTransmissions g + Z.of_nat n) mod 256.
Proof.
  intros Hf. induction n as [| n IH].
  - cbn [Nat.iter nat_rect]. rewrite Z.add_0_r, Z.mod_small; lia.
  - rewrite Nat.iter_succ. unfold onSendFailed at 1. cbv zeta.
    cbn [fst set_failedTransmissions failedTransmissions emit].
    rewrite IH. unfold Int.u8. change (2 ^ 8) with 256.
    rewrite Zplus_mod_idemp_l. f_equal. lia.
Qed.

(** X13.  The failure counter is a byte that wraps: after [n] failed
    transmissions in a row it holds the old count plus [n] modulo 256, so a
    run of 256 failures leaves it where it was.  A failed join adds to the
    same counter; a successful transmission clears it; a successful join
    leaves it as it is. *)
Theorem X13_failure_counter (n : nat) (g : Globals) :
  0 <= failedTransmissions g < 256 ->
  let failures := Nat.iter n (fun g => fst (onSendFailed g)) g in
  failedTransmissions failures = (failedTransmissions g + Z.of_nat n) mod 256
  /\ failedTransmissions (Nat.iter 256 (fun g => fst (onSendFailed g)) g)
     = failedTransmissions g
  /\ failedTransmissions (fst (onJoinFailed g))
     = (failedTransmissions g + 1) mod 256
  /\ failedTransmissions (fst (onSendSuccess failures)) = 0
  /\ failedTransmissions (fst (onJoinSuccess g)) = failedTransmissions g.
Proof.
  intros Hf. cbv zeta. rewrite !onSendFailed_counter by exact Hf.
  repeat split.
  change (Z.of_nat 256) with (1 * 256).
  rewrite Z.mod_add by lia. apply Z.mod_small, Hf.
Qed.

Lemma X13_failure_counter_witness :
  let failures :=
    Nat.iter 3 (fun g => fst (onSendFailed g)) Sample.critical in
  failedTransmissions failures
  = (failedTransmissions Sample.critical + Z.of_nat 3) mod 256
  /\ failedTransmissions
       (Nat.iter 256 (fun g => fst (onSendFailed g)) Sample.critical)
     = failedTransmissions Sample.critical
  /\ failedTransmissions (fst (onJoinFailed Sample.critical))
     = (failedTransmissions Sample.critical + 1) mod 256
  /\ failedTransmissions (fst (onSendSuccess failures)) = 0
  /\ failedTransmissions (fst (onJoinSuccess Sample.critical))
     = failedTransmissions Sample.critical.
Proof.
  apply (X13_failure_counter 3 Sample.critical). cbn. lia.
Defined.

(** ** Sleep duration *)

(** The sleep duration from the three things it depends on. *)
Lemma calculateSleepDuration_cases (millis : Z) (g : Globals) :
  calculateSleepDuration millis g
  = let b := battery_level (currentReading g) in
    let base := if b <? 20 then baseSleep (risk_level (aiResult g)) * 2
                else baseSleep (risk_level (aiResult g)) in
    if (6 <=? (millis / 3600000) mod 24) && ((millis / 3600000) mod 24 <=? 18)
       && (80 <? b)
    then F64.to_u32 (F64.mul (F64.of_Z base) (F64.lit 7 1))
    else base.
Proof.
  unfold calculateSleepDuration, baseSleep. cbv zeta.
  destruct (risk_level (aiResult g)) as [| p | p];
    [| destruct p as [[q | q |] | [q | q |] |] |];
    destruct (Z.ltb_spec (battery_level (currentReading g)) 20);
    destruct (Z.ltb_spec (battery_level (currentReading g)) 10);
    try lia; reflexivity.
Qed.

(** X14.  The sleep duration is between 21000 and 1800000 ms.  With a
    battery level below 20, below 10 included, it is twice the base of the
    risk level.  Between two states with the same battery level and risk
    levels from 0 to 3, the higher risk never sleeps longer. *)
Theorem X14_sleep_duration (millis : Z) (g1 g2 : Globals) :
  21000 <= calculateSleepDuration millis g1 <= 1800000
  /\ (battery_level (currentReading g1) < 20 ->
      calculateSleepDuration millis g1
      = 2 * baseSleep (risk_level (aiResult g1)))
  /\ (battery_level (currentReading g1) = battery_level (currentReading g2) ->
      0 <= risk_level (aiResult g1) <= risk_level (aiResult g2) ->
      risk_level (aiResult g2) <= 3 ->
      calculateSleepDuration millis g2 <= calculateSleepDuration millis g1).
Proof.
  rewrite !calculateSleepDuration_cases. cbv zeta.
  set (day := (6 <=? _) && (_ <=? 18)). clearbody day.
  split; [| split].
  - unfold baseSleep.
    destruct (risk_level (aiResult g1)) as [| p | p];
      [| destruct p as [[q | q |] | [q | q |] |] |];
      destruct (battery_level (currentReading g1) <? 20);
      destruct (day && (80 <? battery_level (currentReading g1)));
      split; apply Z.leb_le; vm_compute; reflexivity.
  - intros Hb.
    destruct (Z.ltb_spec (battery_level (currentReading g1)) 20); [| lia].
    destruct (Z.ltb_spec 80 (battery_level (currentReading g1))); [lia |].
    rewrite andb_false_r. lia.
  - intros <- Hr1 Hr2.
    assert (H1 : risk_level (aiResult g1) = 0 \/ risk_level (aiResult g1) = 1
                 \/ risk_level (aiResult g1) = 2
                 \/ risk_level (aiResult g1) = 3) by lia.
    assert (H2 : risk_level (aiResult g2) = 0 \/ risk_level (aiResult g2) = 1
                 \/ risk_level (aiResult g2) = 2
                 \/ risk_level (aiResult g2) = 3) by lia.
    destruct H1 as [E1 | [E1 | [E1 | E1]]], H2 as [E2 | [E2 | [E2 | E2]]];
      rewrite E1, E2 in *; try lia; cbn [baseSleep];
      destruct (battery_level (currentReading g1) <? 20);
      destruct (day && (80 <? battery_level (currentReading g1)));
      apply Z.leb_le; vm_compute; reflexivity.
Qed.

Lemma X14_sleep_duration_witness :
  calculateSleepDuration 43200000 Sample.critical_low_battery
  = 2 * baseSleep (risk_level (aiResult Sample.critical_low_battery))
  /\ calculateSleepDuration 43200000 Sample.critical
     <= calculateSleepDuration 43200000 Sample.medium_in_emergency.
Proof.
  split.
  - apply (proj1 (proj2 (X14_sleep_duration 43200000
                           Sample.critical_low_battery Sample.critical))).
    cbn. lia.
  - apply (proj2 (proj2 (X14_sleep_duration 43200000
                           Sample.medium_in_emergency Sample.critical)));
      cbn; try reflexivity; lia.
Defined.

(** ** The battery bands of the sleep duration *)





(** ** The clock *)

(** X15.  The transmission decision counts the time since the last
    transmission across the wrap of the 32-bit clock: when the clock has
    advanced by [d] since then, wrapped or not, the decision compares [d]
    with the interval. *)
Theorem X15_elapsed_time_wraps (d : Z) (g : Globals) :
  0 <= lastTransmission g < 2 ^ 32 ->
  0 <= d < 2 ^ 32 ->
  shouldTransmitData (Int.u32 (lastTransmission g + d)) g
  = emergencyMode g
    || (transmissionInterval g <=? d)
    || (2 <=? risk_level (aiResult g)).
Proof.
  intros Hlast Hd. rewrite shouldTransmitData_orb. unfold Int.u32.
  rewrite Zminus_mod_idemp_l.
  replace (lastTransmission g + d - lastTransmission g) with d by lia.
  now rewrite Z.mod_small.
Qed.

Lemma X15_elapsed_time_wraps_witness :
  shouldTransmitData
    (Int.u32
       (lastTransmission
          (set_lastTransmission 4294000000 Sample.calm_low_battery)
        + 1800000))
    (set_lastTransmission 4294000000 Sample.calm_low_battery)
  = true.
Proof.
  rewrite (X15_elapsed_time_wraps 1800000
             (set_lastTransmission 4294000000 Sample.calm_low_battery));
    [reflexivity | cbn; lia | lia].
Defined.

(** ** Reading the frame back *)

Lemma be_decode_be_bytes_2 (z : Z) : be_decode (be_bytes 2 z) = z mod 2 ^ 16.
Proof.
  unfold be_decode, be_bytes. cbn [seq rev app map fold_left].
  change (256 ^ Z.of_nat 1) with 256. change (256 ^ Z.of_nat 0) with 1.
  rewrite Z.div_1_r. change (2 ^ 16) with (256 * 256).
  rewrite (Z.rem_mul_r z 256 256) by lia. lia.
Qed.

Lemma be_decode_be_bytes_4 (z : Z) : be_decode (be_bytes 4 z) = z mod 2 ^ 32.
Proof.
  unfold be_decode, be_bytes. cbn [seq rev app map fold_left].
  change (256 ^ Z.of_nat 3) with (256 * 256 * 256).
  change (256 ^ Z.of_nat 2) with (256 * 256).
  change (256 ^ Z.of_nat 1) with 256. change (256 ^ Z.of_nat 0) with 1.
  rewrite Z.div_1_r. change (2 ^ 32) with (256 * (256 * (256 * 256))).
  rewrite (Z.rem_mul_r z 256 (256 * (256 * 256))) by lia.
  rewrite (Z.rem_mul_r (z / 256) 256 (256 * 256)) by lia.
  rewrite (Z.rem_mul_r (z / 256 / 256) 256 256) by lia.
  rewrite !Z.div_div by lia. lia.
Qed.

Lemma signed16_s16 (x : Z) : signed16 (Int.s16 x mod 2 ^ 16) = Int.s16 x.
Proof.
  unfold signed16, Int.s16.
  pose proof (Z.mod_pos_bound (x + 2 ^ 15) (2 ^ 16) ltac:(lia)) as Hb.
  set (y := (x + 2 ^ 15) mod 2 ^ 16) in *. clearbody y.
  destruct (Z.ltb_spec y (2 ^ 15)).
  - replace ((y - 2 ^ 15) mod 2 ^ 16) with (y + 2 ^ 15)
      by (rewrite <- (Z.mod_add _ 1) by lia;
          rewrite Z.mod_small by lia; lia).
    destruct (Z.ltb_spec (y + 2 ^ 15) (2 ^ 15)); lia.
  - rewrite Z.mod_small by lia.
    destruct (Z.ltb_spec (y - 2 ^ 15) (2 ^ 15)); lia.
Qed.

(** The elements of a list of length 4. *)
Lemma length_4 (l : list Z) :
  length l = 4%nat -> exists a b c d, l = [a; b; c; d].
Proof.
  destruct l as [| a [| b [| c [| d [| e l]]]]]; try discriminate.
  intros _. now exists a, b, c, d.
Qed.

(** X16.  The frame can be read back.  Its first 4 bytes are the timestamp,
    bytes 16 to 41 are the 13 measurements as big-endian two's complement,
    bytes 42 and 43 the quality mask and the battery level, byte 44 the
    signal strength plus 128, bytes 45 and 46 the scaled anomaly score,
    byte 47 the risk level, bytes 48 and 49 the scaled confidence and byte
    50 the emergency flag. *)
Theorem X16_frame_read_back
  (float_bytes : float -> list Z) (payload : list Z) (g : Globals) :
  (forall x, length (float_bytes x) = 4%nat) ->
  length payload = 64%nat ->
  (51 <= length (appData g))%nat ->
  let frame := uplinkFrame (prepareTxFrame float_bytes payload g) in
  let r := currentReading g in
  let ai := aiResult g in
  (0 <= timestamp r < 2 ^ 32 -> be_decode (take 4 frame) = timestamp r)
  /\ (forall i, (i < 13)%nat ->
      signed16 (be_decode (take 2 (drop (16 + 2 * i) frame)))
      = nth i (measurements r) 0)
  /\ nth 42 frame 0 = quality_flags r
  /\ nth 43 frame 0 = battery_level r
  /\ (-128 <= signal_strength r <= 127 ->
      nth 44 frame 0 - 128 = signal_strength r)
  /\ be_decode (take 2 (drop 45 frame))
     = F32.to_u16 (F32.mul (anomaly_score ai) (F32.of_Z 1000))
  /\ nth 47 frame 0 = risk_level ai
  /\ be_decode (take 2 (drop 48 frame))
     = F32.to_u16 (F32.mul (confidence ai) (F32.of_Z 1000))
  /\ nth 50 frame 0 = (if emergencyMode g then 1 else 0).
Proof.
  intros Hfb Hpay Happ. cbv zeta.
  rewrite (proj2 (prepareTxFrame_uplinkFrame _ _ _ Hfb Hpay Happ)).
  unfold uplink_layout. cbv zeta.
  destruct (length_4 _ (Hfb (latitude (currentReading g))))
    as (a1 & a2 & a3 & a4 & ->).
  destruct (length_4 _ (Hfb (longitude (currentReading g))))
    as (b1 & b2 & b3 & b4 & ->).
  destruct (length_4 _ (Hfb (elevation (currentReading g))))
    as (c1 & c2 & c3 & c4 & ->).
  set (ts := be_bytes 4 (timestamp (currentReading g))).
  set (sc := be_bytes 2 (F32.to_u16 (F32.mul (anomaly_score (aiResult g))
                                       (F32.of_Z 1000)))).
  set (cf := be_bytes 2 (F32.to_u16 (F32.mul (confidence (aiResult g))
                                       (F32.of_Z 1000)))).
  assert (Hts : exists t1 t2 t3 t4, ts = [t1; t2; t3; t4])
    by (apply length_4, length_be_bytes).
  assert (Hms : forall i, (i < 13)%nat ->
            take 2 (drop (2 * i)
                      (concat (map (be_bytes 2)
                                 (measurements (currentReading g)))))
            = be_bytes 2 (nth i (measurements (currentReading g)) 0)).
  { intros i Hi. unfold measurements.
    do 13 (destruct i as [| i]; [reflexivity |]). lia. }
  assert (Hsc : exists s1 s2, sc = [s1; s2])
    by (subst sc; unfold be_bytes; cbn [seq rev app map]; eauto).
  assert (Hcf : exists s1 s2, cf = [s1; s2])
    by (subst cf; unfold be_bytes; cbn [seq rev app map]; eauto).
  assert (Hlen : length (concat (map (be_bytes 2)
                                   (measurements (currentReading g))))
                 = 26%nat) by reflexivity.
  set (ms := concat (map (be_bytes 2) (measurements (currentReading g)))) in *.
  destruct Hts as (t1 & t2 & t3 & t4 & Hts).
  split; [| split].
  - intros Hrange. rewrite Hts. cbn [app take]. rewrite <- Hts. subst ts.
    rewrite be_decode_be_bytes_4. apply Z.mod_small, Hrange.
  - intros i Hi. rewrite Hts.
    replace (16 + 2 * i)%nat with (16 + (2 * i))%nat by lia.
    change (([t1; t2; t3; t4]
             ++ ([a1; a2; a3; a4] ++ [b1; b2; b3; b4] ++ [c1; c2; c3; c4])
             ++ ms ++ ?rest))
      with ([t1; t2; t3; t4; a1; a2; a3; a4; b1; b2; b3; b4; c1; c2; c3; c4]
            ++ ms ++ rest).
    rewrite drop_app_add' by reflexivity.
    rewrite drop_app_le by lia. rewrite take_app_le
      by (rewrite length_drop; lia).
    rewrite (Hms i Hi), be_decode_be_bytes_2.
    pose proof (Hi) as Hi'. revert Hi'. unfold measurements.
    do 13 (destruct i as [| i];
           [intros _; cbn [nth]; unfold F32.to_s16; apply signed16_s16 |]).
    lia.
  - destruct Hsc as (s1 & s2 & Hsc), Hcf as (f1 & f2 & Hcf).
    rewrite Hts, Hsc, Hcf.
    set (pre := [t1; t2; t3; t4; a1; a2; a3; a4; b1; b2; b3; b4;
                 c1; c2; c3; c4] ++ ms).
    assert (Hpre : length pre = 42%nat)
      by (subst pre; rewrite length_app, Hlen; reflexivity).
    match goal with
    | |- context [nth 42 ?l 0] =>
        match l with
        | _ ++ _ ++ _ ++ ?tl =>
            change l with (pre ++ tl);
            assert (Hnth : forall n k, n = (42 + k)%nat ->
                      nth n (pre ++ tl) 0 = nth k tl 0)
              by (intros n k ->; rewrite <- Hpre; apply app_nth2_plus);
            assert (Hdrop : forall n k, n = (42 + k)%nat ->
                      drop n (pre ++ tl) = drop k tl)
              by (intros n k ->; now apply drop_app_add')
        end
    end.
    rewrite (Hnth 42%nat 0%nat eq_refl), (Hnth 43%nat 1%nat eq_refl),
      (Hnth 44%nat 2%nat eq_refl), (Hnth 47%nat 5%nat eq_refl),
      (Hnth 50%nat 8%nat eq_refl), (Hdrop 45%nat 3%nat eq_refl),
      (Hdrop 48%nat 6%nat eq_refl).
    cbn [app nth drop take].
    rewrite <- Hsc, <- Hcf. subst sc cf.
    rewrite !be_decode_be_bytes_2.
    unfold F32.to_u16, Int.u16.
    rewrite !Z.mod_mod by lia.
    repeat split.
    intros Hs. rewrite Z.mod_small; lia.
Qed.

Lemma X16_frame_read_back_witness :
  let frame :=
    uplinkFrame (prepareTxFrame esp32_float_bytes (repeat 170 64)
                   Sample.critical) in
  be_decode (take 4 frame) = 1200
  /\ signed16 (be_decode (take 2 (drop (16 + 2 * 4) frame))) = -8
  /\ nth 44 frame 0 - 128 = -70.
Proof.
  pose proof (X16_frame_read_back esp32_float_bytes (repeat 170 64)
                Sample.critical (fun x => eq_refl) eq_refl) as H.
  assert (Happ : (51 <= length (appData Sample.critical))%nat) by (cbn; lia).
  destruct (H Happ) as (Hts & Hms & _ & _ & Hsig & _).
  cbv zeta. split; [| split].
  - apply Hts. cbn. lia.
  - rewrite (Hms 4%nat) by lia. reflexivity.
  - apply Hsig. cbn. lia.
Defined.

(** ** Initial weights *)

Lemma weight_of_draw_bound (d : Z) :
  -100 <= d < 100 ->
  SFleb (F32.lit (-1) 1) (weight_of_draw d)
  && SFleb (weight_of_draw d) (F32.lit 1 1) = true.
Proof.
  intros Hd.
  assert (Hall : forallb (fun d => SFleb (F32.lit (-1) 1) (weight_of_draw d)
                                   && SFleb (weight_of_draw d) (F32.lit 1 1))
                   draws = true) by (vm_cast_no_check (eq_refl true)).
  rewrite forallb_forall in Hall. apply Hall. unfold draws.
  replace d with (Z.of_nat (Z.to_nat (d + 100)) - 100) by lia.
  apply (in_map (fun n => Z.of_nat n - 100)), in_seq. lia.
Qed.

Lemma nth_map_seq (A : Type) (f : nat -> A) (n i : nat) (d : A) :
  (i < n)%nat -> nth i (map f (seq 0 n)) d = f i.
Proof.
  intros Hi. rewrite nth_lookup, list_lookup_fmap, lookup_seq_lt by exact Hi.
  reflexivity.
Qed.

(** X17.  After [initializeNeuralNetwork], with [random(-100, 100)]
    answering from -100 to 99: the input weights are 13 rows of 8 and the
    output weights are 8, so that every weight [runEdgeAI] reads exists, and
    every weight is between -0.1 and 0.1 as a [float]. *)
Theorem X17_initial_weights (random : nat -> Z) (g : Globals) :
  (forall k, -100 <= random k < 100) ->
  let g' := initializeNeuralNetwork random g in
  length (nn_weights_input_hidden g') = 13%nat
  /\ length (nn_weights_hidden_output g') = 8%nat
  /\ (forall i h, (i < 13)%nat -> (h < 8)%nat ->
      length (nth i (nn_weights_input_hidden g') []) = 8%nat
      /\ SFleb (F32.lit (-1) 1) (at_ (nth i (nn_weights_input_hidden g') []) h)
         = true
      /\ SFleb (at_ (nth i (nn_weights_input_hidden g') []) h) (F32.lit 1 1)
         = true)
  /\ (forall h, (h < 8)%nat ->
      SFleb (F32.lit (-1) 1) (at_ (nn_weights_hidden_output g') h) = true
      /\ SFleb (at_ (nn_weights_hidden_output g') h) (F32.lit 1 1) = true).
Proof.
  intros Hr. cbv zeta. unfold initializeNeuralNetwork. cbv zeta.
  cbn [emit set_nn_weights nn_weights_input_hidden nn_weights_hidden_output].
  split; [now rewrite length_map, length_seq |].
  split; [now rewrite length_map, length_seq |].
  split.
  - intros i h Hi Hh. rewrite nth_map_seq by exact Hi.
    split; [now rewrite length_map, length_seq |].
    unfold at_. rewrite nth_map_seq by exact Hh.
    apply andb_prop, weight_of_draw_bound, Hr.
  - intros h Hh. unfold at_. rewrite nth_map_seq by exact Hh.
    apply andb_prop, weight_of_draw_bound, Hr.
Qed.

Lemma X17_initial_weights_witness :
  let g' := initializeNeuralNetwork SampleHw.random Sample.critical in
  length (nn_weights_input_hidden g') = 13%nat
  /\ length (nn_weights_hidden_output g') = 8%nat.
Proof.
  pose proof (X17_initial_weights SampleHw.random Sample.critical) as H.
  cbv zeta in H. cbv zeta.
  assert (Hr : forall k, -100 <= SampleHw.random k < 100)
    by (intros k; unfold SampleHw.random; lia).
  destruct (H Hr) as (H13 & H8 & _). split; assumption.
Defined.
